(** * go_todo: a shallow embedding of [main.go]

    The service is a CRUD layer over one MongoDB collection.  The handlers
    of [main.go] are embedded as computations in a small state monad whose
    state is the collection together with the trace of effects performed
    (store round-trips, rendered responses, process-level events).

    The Go standard library and the MongoDB driver are not part of the
    repository; the fragments the handlers rely on ([encoding/json] decoding
    into the [todo] struct, [primitive.ObjectID] hex coding, the struct
    codec of the driver, [InsertOne]/[UpdateOne]/[DeleteOne]/[Find]) are
    modelled after their documented behaviour and kept in modules of their
    own ([hex], [primitive], [json], [bson], [mongo]). *)

From Stdlib Require Import ZArith NArith.
From Stdlib.Strings Require Import Ascii String Byte.
From stdpp Require Import base option list strings gmap fin_maps.

Set Warnings "-register-all".

Local Open Scope string_scope.

(* ===================================================================== *)
(** ** primitive.ObjectID and its hex coding                              *)
(* ===================================================================== *)

Module hex.

(** [hex.EncodeToString] uses the lower-case table "0123456789abcdef". *)
Definition hextable : string := "0123456789abcdef".

Definition digit (n : N) : ascii :=
  match String.get (N.to_nat n) hextable with
  | Some c => c
  | None => "0"%char
  end.

(** [fromHexChar]: both cases of the letters are accepted. *)
Definition fromHexChar (c : ascii) : option N :=
  let n := N_of_ascii c in
  if ((48 <=? n) && (n <=? 57))%N then Some (n - 48)%N
  else if ((97 <=? n) && (n <=? 102))%N then Some (n - 97 + 10)%N
  else if ((65 <=? n) && (n <=? 70))%N then Some (n - 65 + 10)%N
  else None.

Definition encode_byte (b : byte) : string :=
  let n := Byte.to_N b in
  String (digit (n / 16)) (String (digit (n mod 16)) EmptyString).

Fixpoint EncodeToString (bs : list byte) : string :=
  match bs with
  | [] => EmptyString
  | b :: bs' => encode_byte b ++ EncodeToString bs'
  end.

Definition decode_pair (hi lo : ascii) : option byte :=
  match fromHexChar hi, fromHexChar lo with
  | Some h, Some l => Byte.of_N (h * 16 + l)
  | _, _ => None
  end.

(** [hex.DecodeString]: fails on an odd length or on a non-hex byte. *)
Fixpoint DecodeString (s : string) : option (list byte) :=
  match s with
  | EmptyString => Some []
  | String _ EmptyString => None
  | String hi (String lo s') =>
      match decode_pair hi lo, DecodeString s' with
      | Some b, Some bs => Some (b :: bs)
      | _, _ => None
      end
  end.

End hex.

Module primitive.

(** [type ObjectID [12]byte]. *)
Inductive ObjectID : Type :=
  OID (b0 b1 b2 b3 b4 b5 b6 b7 b8 b9 b10 b11 : byte).

Definition bytes (o : ObjectID) : list byte :=
  match o with
  | OID b0 b1 b2 b3 b4 b5 b6 b7 b8 b9 b10 b11 =>
      [b0; b1; b2; b3; b4; b5; b6; b7; b8; b9; b10; b11]
  end.

Definition of_bytes (l : list byte) : option ObjectID :=
  match l with
  | [b0; b1; b2; b3; b4; b5; b6; b7; b8; b9; b10; b11] =>
      Some (OID b0 b1 b2 b3 b4 b5 b6 b7 b8 b9 b10 b11)
  | _ => None
  end.

(** [NilObjectID] is the zero value. *)
Definition NilObjectID : ObjectID :=
  OID x00 x00 x00 x00 x00 x00 x00 x00 x00 x00 x00 x00.

#[global] Instance byte_eq_dec : EqDecision byte := Byte.byte_eq_dec.

#[global] Instance ObjectID_eq_dec : EqDecision ObjectID.
Proof. solve_decision. Defined.

(** [func (id ObjectID) IsZero() bool]. *)
Definition IsZero (o : ObjectID) : bool := bool_decide (o = NilObjectID).

(** [func (id ObjectID) Hex() string]. *)
Definition Hex (o : ObjectID) : string := hex.EncodeToString (bytes o).

(** [ObjectIDFromHex]: the string must hold exactly 24 hex digits. *)
Definition ObjectIDFromHex (s : string) : option ObjectID :=
  if Nat.eqb (String.length s) 24 then
    match hex.DecodeString s with
    | Some bs => of_bytes bs
    | None => None
    end
  else None.

(** The characters a hex digit may be. *)
Definition is_hex_digit (c : ascii) : bool :=
  existsb (Ascii.eqb c) (list_ascii_of_string "0123456789abcdefABCDEF").

(** [IsValidObjectID(s)] is [ObjectIDFromHex(s)] having a nil error. *)
Definition IsValidObjectID (s : string) : bool :=
  match ObjectIDFromHex s with Some _ => true | None => false end.

End primitive.

Export primitive.

(* ===================================================================== *)
(** ** Time                                                               *)
(* ===================================================================== *)

(** A [time.Time] is modelled by the instant it denotes, in nanoseconds
    since the Unix epoch; locations and monotonic readings are left out. *)
Definition Time : Type := Z.

Definition Second : Z := 1000000000.

(** The zero [time.Time] is January 1, year 1, 00:00:00 UTC. *)
Definition zero_Time : Time := (-62135596800 * Second)%Z.

(** Go's [error] interface is observed through [Error()] only: an error
    value is modelled by its message, a nilable error by [option error]. *)
Definition error : Type := string.

(* ===================================================================== *)
(** ** BSON documents                                                     *)
(* ===================================================================== *)

Module bson.

(** The kinds of BSON value this service writes. *)
Inductive value : Type :=
| ObjectID_ (o : ObjectID)
| String_ (s : string)
| Boolean (b : bool)
| DateTime (ms : Z).

#[global] Instance value_eq_dec : EqDecision value.
Proof. solve_decision. Defined.

(** [bson.M]; stored documents are looked up by key in the same way. *)
Abbreviation M := (gmap string value).

(** [primitive.NewDateTimeFromTime]: milliseconds since the epoch. *)
Definition NewDateTimeFromTime (t : Time) : Z := (t / 1000000)%Z.

(** [DateTime.Time()]. *)
Definition DateTime_Time (ms : Z) : Time := (ms * 1000000)%Z.

Definition kind (v : value) : string :=
  match v with
  | ObjectID_ _ => "objectID"
  | String_ _ => "string"
  | Boolean _ => "boolean"
  | DateTime _ => "UTC datetime"
  end.

End bson.

(* ===================================================================== *)
(** ** The two structs of [main.go]                                       *)
(* ===================================================================== *)

(** [todoModel], the persisted form (bson tags [_id,omitempty], [title],
    [completed], [createAt]). *)
Record todoModel : Type := mk_todoModel {
  m_ID : ObjectID;
  m_Title : string;
  m_Completed : bool;
  m_CreatedAt : Time
}.

(** [todo], the wire form (json tags [id], [title], [completed],
    [created_at]); [Completed] is a Go string. *)
Record todo : Type := mk_todo {
  ID : string;
  Title : string;
  Completed : string;
  CreatedAt : Time
}.

(** [var t todo]: the zero value. *)
Definition zero_todo : todo :=
  {| ID := ""; Title := ""; Completed := ""; CreatedAt := zero_Time |}.

(* ===================================================================== *)
(** ** encoding/json                                                      *)
(* ===================================================================== *)

Module json.

(** A JSON text after lexing; a string carries its unquoted content, a
    number its literal. *)
Inductive value : Type :=
| Null
| Bool (b : bool)
| Number (lit : string)
| String_ (s : string)
| Array (elems : list value)
| Object (members : list (string * value)).

(** The name [UnmarshalTypeError.Value] gives to a JSON value. *)
Definition kind (v : value) : string :=
  match v with
  | Null => "null"
  | Bool _ => "bool"
  | Number _ => "number"
  | String_ _ => "string"
  | Array _ => "array"
  | Object _ => "object"
  end.

(** What a request body holds: a byte stream that does not start with a
    well-formed JSON value (the decoder's syntax or EOF error is kept), or
    the first JSON value of the stream. *)
Inductive body : Type :=
| Malformed (err : error)
| Document (v : value).

Definition lower (c : ascii) : ascii :=
  let n := N_of_ascii c in
  if ((65 <=? n) && (n <=? 90))%N then ascii_of_N (n + 32) else c.

Fixpoint fold (s : string) : string :=
  match s with
  | EmptyString => EmptyString
  | String c s' => String (lower c) (fold s')
  end.

(** The fields of [todo] by json tag.  The decoder prefers an exact match
    of the key and accepts a case-insensitive one; the four tags are lower
    case, differ under folding and hold neither [k] nor [s] (the letters
    with non-ASCII fold partners), so a key names a field exactly when its
    ASCII folding is the tag. *)
Inductive field : Type := F_id | F_title | F_completed | F_created_at.

Definition tag (f : field) : string :=
  match f with
  | F_id => "id"
  | F_title => "title"
  | F_completed => "completed"
  | F_created_at => "created_at"
  end.

Definition field_of_key (k : string) : option field :=
  let k' := fold k in
  if String.eqb k' "id" then Some F_id
  else if String.eqb k' "title" then Some F_title
  else if String.eqb k' "completed" then Some F_completed
  else if String.eqb k' "created_at" then Some F_created_at
  else None.

Definition UnmarshalTypeError_field (v : value) (f : field) : error :=
  "json: cannot unmarshal " ++ kind v ++ " into Go struct field todo."
    ++ tag f ++ " of type string".

Definition UnmarshalTypeError_top (v : value) : error :=
  "json: cannot unmarshal " ++ kind v ++ " into Go value of type main.todo".

(** The outcome of storing one member value into its field. *)
Inductive stored : Type :=
| Set_ (t : todo)          (* the field was assigned, or null left it alone *)
| Mismatch (e : error)     (* UnmarshalTypeError: saved, decoding goes on *)
| Abort (e : error).       (* an Unmarshaler failed: decoding stops *)

Definition set_string (f : field) (s : string) (t : todo) : todo :=
  match f with
  | F_id => mk_todo s (Title t) (Completed t) (CreatedAt t)
  | F_title => mk_todo (ID t) s (Completed t) (CreatedAt t)
  | F_completed => mk_todo (ID t) (Title t) s (CreatedAt t)
  | F_created_at => t
  end.

Section Decoder.

(** [time.Time.UnmarshalJSON] on the content of a JSON string: strict
    RFC 3339 parsing, which this development takes as given. *)
Variable parse_time : string -> error + Time.

Definition Time_UnmarshalJSON (v : value) (t : todo) : stored :=
  match v with
  | Null => Set_ t
  | String_ s =>
      match parse_time s with
      | inl e => Abort e
      | inr tm => Set_ (mk_todo (ID t) (Title t) (Completed t) tm)
      end
  | _ => Abort "Time.UnmarshalJSON: input is not a JSON string"
  end.

(** [literalStore] / [array] / [object] at a field of [todo]. *)
Definition store_field (f : field) (v : value) (t : todo) : stored :=
  match f with
  | F_created_at => Time_UnmarshalJSON v t
  | _ =>
      match v with
      | String_ s => Set_ (set_string f s t)
      | Null => Set_ t
      | _ => Mismatch (UnmarshalTypeError_field v f)
      end
  end.

(** [d.saveError]: only the first error is kept. *)
Definition saveError (saved : option error) (e : error) : option error :=
  match saved with
  | Some _ => saved
  | None => Some e
  end.

(** [d.object] on a struct: members in order, unknown keys skipped. *)
Fixpoint object (ms : list (string * value)) (t : todo)
    (saved : option error) : todo * option error :=
  match ms with
  | [] => (t, saved)
  | (k, v) :: ms' =>
      match field_of_key k with
      | None => object ms' t saved
      | Some f =>
          match store_field f v t with
          | Set_ t' => object ms' t' saved
          | Mismatch e => object ms' t (saveError saved e)
          | Abort e => (t, Some e)
          end
      end
  end.

(** [json.NewDecoder(r.Body).Decode(&t)]: the struct after the call and
    the error returned. *)
Definition Decode (b : body) (t : todo) : todo * option error :=
  match b with
  | Malformed e => (t, Some e)
  | Document Null => (t, None)
  | Document (Object ms) => object ms t None
  | Document v => (t, Some (UnmarshalTypeError_top v))
  end.

End Decoder.

End json.

(* ===================================================================== *)
(** ** The driver's struct codec for [todoModel]                          *)
(* ===================================================================== *)

Module codec.

Import bson.

(** Encoding follows the bson tags; [omitempty] drops a zero [_id]. *)
Definition Marshal (tm : todoModel) : bson.M :=
  let d : bson.M :=
    <["title" := String_ (m_Title tm)]>
      (<["completed" := Boolean (m_Completed tm)]>
         (<["createAt" := DateTime (NewDateTimeFromTime (m_CreatedAt tm))]> ∅)) in
  if IsZero (m_ID tm) then d else <["_id" := ObjectID_ (m_ID tm)]> d.

Definition decode_error (key : string) (v : value) (into : string) : error :=
  "error decoding key " ++ key ++ ": cannot decode " ++ kind v
    ++ " into " ++ into.

(** Decoding a stored document: a missing key leaves the zero value, a
    value of the field's own BSON kind is assigned, and a value of another
    of the kinds above is a decode error.  (The driver's decoders convert
    from some further kinds; of the values this service writes, the only
    one it ever stores under a key of a different type is the string that
    [updateTodo] puts under [completed], which the boolean decoder
    rejects.) *)
Definition Unmarshal (d : bson.M) : error + todoModel :=
  match d !! "_id" with
  | Some (ObjectID_ _) | None =>
      match d !! "title" with
      | Some (String_ _) | None =>
          match d !! "completed" with
          | Some (Boolean _) | None =>
              match d !! "createAt" with
              | Some (DateTime _) | None =>
                  inr {| m_ID := match d !! "_id" with
                                 | Some (ObjectID_ o) => o
                                 | _ => NilObjectID
                                 end;
                         m_Title := match d !! "title" with
                                    | Some (String_ s) => s
                                    | _ => ""
                                    end;
                         m_Completed := match d !! "completed" with
                                        | Some (Boolean b) => b
                                        | _ => false
                                        end;
                         m_CreatedAt := match d !! "createAt" with
                                        | Some (DateTime ms) => DateTime_Time ms
                                        | _ => zero_Time
                                        end |}
              | Some v => inl (decode_error "createAt" v "a time.Time")
              end
          | Some v => inl (decode_error "completed" v "a boolean type")
          end
      | Some v => inl (decode_error "title" v "a string type")
      end
  | Some v => inl (decode_error "_id" v "an ObjectID")
  end.

(** [cursor.All(ctx, &todos)]: stops at the first document that does not
    decode. *)
Fixpoint All (docs : list bson.M) : list todoModel * option error :=
  match docs with
  | [] => ([], None)
  | d :: docs' =>
      match Unmarshal d with
      | inl e => ([], Some e)
      | inr tm =>
          match All docs' with
          | (tms, None) => (tm :: tms, None)
          | (_, Some e) => ([], Some e)
          end
      end
  end.

End codec.

(* ===================================================================== *)
(** ** The world the program runs in                                      *)
(* ===================================================================== *)

Module renderer.

(** The Go values [main.go] puts into a [renderer.M]. *)
Inductive value : Type :=
| Str (s : string)
| Todos (l : list todo)
| Any (v : bson.value).

Abbreviation M := (gmap string value).

End renderer.

(** Effects, in program order. *)
Inductive event : Type :=
| E_Find (filter : bson.M)
| E_InsertOne (doc : bson.M)
| E_DeleteOne (filter : bson.M)
| E_UpdateOne (filter : bson.M) (set : bson.M)
| E_JSON (status : Z) (v : renderer.M)
| E_Println (msg : string)
| E_Connect (uri : string)
| E_Ping
| E_Disconnect
| E_Notify
| E_go_ListenAndServe (addr : string)
| E_Interrupt
| E_Shutdown (timeout : Z).

(** The effects of serving a request: store calls and renderings. *)
Definition serving_event (e : event) : bool :=
  match e with
  | E_Find _ | E_InsertOne _ | E_DeleteOne _ | E_UpdateOne _ _ | E_JSON _ _ => true
  | _ => false
  end.

Definition is_store_call (e : event) : bool :=
  match e with
  | E_Find _ | E_InsertOne _ | E_DeleteOne _ | E_UpdateOne _ _ => true
  | _ => false
  end.

(** The collection [demo_todo.todo] in natural order, the global [client]
    (nil until [init] connects) and the trace of effects so far. *)
Record world : Type := mk_world {
  collection : list bson.M;
  client : bool;
  trace : list event
}.

(** How a computation ends: normally, with a panic (net/http recovers it
    per connection and writes no response), or with [log.Fatal]. *)
Inductive outcome (A : Type) : Type :=
| Return (a : A)
| Panic (msg : string)
| Fatal (msg : string).
Arguments Return {A} a.
Arguments Panic {A} msg.
Arguments Fatal {A} msg.

Definition Go (A : Type) : Type := world -> outcome A * world.

#[global] Instance Go_ret : MRet Go := fun A a w => (Return a, w).

#[global] Instance Go_bind : MBind Go := fun A B f m w =>
  match m w with
  | (Return a, w') => f a w'
  | (Panic msg, w') => (Panic msg, w')
  | (Fatal msg, w') => (Fatal msg, w')
  end.

Definition record (e : event) (w : world) : world :=
  mk_world (collection w) (client w) (trace w ++ [e]).

Definition emit (e : event) : Go unit := fun w => (Return tt, record e w).

Definition panic {A} (msg : string) : Go A := fun w => (Panic msg, w).

Definition nil_dereference : string :=
  "runtime error: invalid memory address or nil pointer dereference".

(** [err.Error()]: a method call on a nil interface value panics. *)
Definition Error (err : option error) : Go string :=
  match err with
  | Some e => mret e
  | None => panic nil_dereference
  end.

(** [res.Field] through a pointer that may be nil. *)
Definition deref {A} (p : option A) : Go A :=
  match p with
  | Some a => mret a
  | None => panic nil_dereference
  end.

(** What the outside world supplies while one request is served: the value
    of [primitive.NewObjectID()], the id the driver generates for a document
    without [_id], the reading of [time.Now()], and the transport or timeout
    error of the request's store call, if it has one. *)
Record env : Type := mk_env {
  NewObjectID : ObjectID;
  driver_ObjectID : ObjectID;
  Now : Time;
  store_err : option error
}.

(* ===================================================================== *)
(** ** The collection operations of the driver                            *)
(* ===================================================================== *)

Module mongo.

Record InsertOneResult : Type := { InsertedID : bson.value }.
Record DeleteResult : Type := { DeletedCount : Z }.
Record UpdateResult : Type := { MatchedCount : Z; ModifiedCount : Z }.

(** An equality filter: every pair of the filter is in the document. *)
Definition matches (filter d : bson.M) : bool :=
  bool_decide (map_Forall (fun k v => d !! k = Some v) filter).

Definition has_id (id : bson.value) (d : bson.M) : bool :=
  bool_decide (d !! "_id" = Some id).

Definition duplicate_key : error := "E11000 duplicate key error".

Definition with_collection (c : list bson.M) (w : world) : world :=
  mk_world c (client w) (trace w).

(** [collection.Find(ctx, filter)]: the cursor over the matching
    documents, or the error of the round-trip. *)
Definition Find (e : env) (filter : bson.M)
    : Go (option (list bson.M) * option error) :=
  fun w0 =>
    let w := record (E_Find filter) w0 in
    match store_err e with
    | Some err => (Return (None, Some err), w)
    | None => (Return (Some (List.filter (matches filter) (collection w)), None), w)
    end.

(** [collection.InsertOne(ctx, doc)]: the driver adds an [_id] when the
    document has none; the unique index on [_id] rejects a duplicate. *)
Definition InsertOne (e : env) (doc : bson.M)
    : Go (option InsertOneResult * option error) :=
  fun w0 =>
    let w := record (E_InsertOne doc) w0 in
    match store_err e with
    | Some err => (Return (None, Some err), w)
    | None =>
        let id := default (bson.ObjectID_ (driver_ObjectID e)) (doc !! "_id") in
        if existsb (has_id id) (collection w)
        then (Return (None, Some duplicate_key), w)
        else (Return (Some {| InsertedID := id |}, None),
              with_collection (collection w ++ [<["_id" := id]> doc])%list w)
    end.

(** [collection.DeleteOne(ctx, filter)]: removes the first match. *)
Definition DeleteOne (e : env) (filter : bson.M)
    : Go (option DeleteResult * option error) :=
  fun w0 =>
    let w := record (E_DeleteOne filter) w0 in
    match store_err e with
    | Some err => (Return (None, Some err), w)
    | None =>
        match list_find (fun d => matches filter d = true) (collection w) with
        | None => (Return (Some {| DeletedCount := 0 |}, None), w)
        | Some (i, _) =>
            (Return (Some {| DeletedCount := 1 |}, None),
             with_collection (delete i (collection w)) w)
        end
    end.

(** [collection.UpdateOne(ctx, filter, bson.M{"$set": set})], without
    upsert: the pairs of [set] overwrite those of the first match. *)
Definition UpdateOne (e : env) (filter set : bson.M)
    : Go (option UpdateResult * option error) :=
  fun w0 =>
    let w := record (E_UpdateOne filter set) w0 in
    match store_err e with
    | Some err => (Return (None, Some err), w)
    | None =>
        match list_find (fun d => matches filter d = true) (collection w) with
        | None =>
            (Return (Some {| MatchedCount := 0; ModifiedCount := 0 |}, None), w)
        | Some (i, d) =>
            let d' : bson.M := set ∪ d in
            (Return (Some {| MatchedCount := 1;
                             ModifiedCount := if decide (d' = d) then 0 else 1 |},
                     None),
             with_collection (<[i := d']> (collection w)) w)
        end
    end.

End mongo.

(* ===================================================================== *)
(** ** main.go                                                            *)
(* ===================================================================== *)

(** The handlers follow the source statement by statement; an early
    [return] is the end of a branch.  [homeHandler], which renders a static
    template, takes no part in what follows and is left out. *)

Definition hostName : string := "mongodb://127.0.0.1:27017".
Definition dbName : string := "demo_todo".
Definition collectionName : string := "todo".
Definition port : string := ":9000".

Definition StatusOK : Z := 200.
Definition StatusCreated : Z := 201.
Definition StatusBadRequest : Z := 400.

(** [rnd.JSON(w, status, v)]. *)
Definition rnd_JSON (status : Z) (v : renderer.M) : Go unit :=
  emit (E_JSON status v).

Definition is_nil {A} (p : option A) : bool :=
  match p with None => true | Some _ => false end.

Import renderer.

(** [strconv.FormatBool]. *)
Definition FormatBool (b : bool) : string := if b then "true" else "false".

Definition fetchTodos (e : env) : Go unit :=
  '(cursor, err) ← mongo.Find e ∅;
  if negb (is_nil err) then
    msg ← Error err;
    rnd_JSON StatusBadRequest
      {[ "message" := Str "could not fetch todos"; "error" := Str msg ]}
  else
    docs ← deref cursor;
    let '(todos, err) := codec.All docs in
    if negb (is_nil err) then
      msg ← Error err;
      rnd_JSON StatusBadRequest
        {[ "message" := Str "could not decode todos"; "error" := Str msg ]}
    else
      let todoList :=
        foldl (fun acc t =>
                 (acc ++ [ {| ID := Hex (m_ID t);
                              Title := m_Title t;
                              Completed := FormatBool (m_Completed t);
                              CreatedAt := m_CreatedAt t |} ])%list)
              [] todos in
      rnd_JSON StatusOK {[ "data" := Todos todoList ]}.

Definition deleteTodo (e : env) (id : string) : Go unit :=
  if negb (IsValidObjectID id) then
    rnd_JSON StatusBadRequest
      {[ "message" := Str "invalid id"; "error" := Str "bad request" ]}
  else
    let objID := default NilObjectID (ObjectIDFromHex id) in
    '(res, err) ← mongo.DeleteOne e {[ "_id" := bson.ObjectID_ objID ]};
    failed ← (if negb (is_nil err) then mret true
              else r ← deref res; mret (bool_decide (mongo.DeletedCount r = 0%Z)));
    if (failed : bool) then
      msg ← Error err;
      rnd_JSON StatusBadRequest
        {[ "message" := Str "could not delete todo"; "error" := Str msg ]}
    else
      rnd_JSON StatusOK {[ "message" := Str "todo deleted successfully" ]}.

(** The routes of [todoHandlers], mounted at [/todo]. *)
Inductive request : Type :=
| GET_
| POST (body : json.body)
| PUT (id : string) (body : json.body)
| DELETE (id : string).

Section Handlers.

Variable parse_time : string -> error + Time.

Definition createTodo (e : env) (body : json.body) : Go unit :=
  let '(t, err) := json.Decode parse_time body zero_todo in
  if negb (is_nil err) then
    msg ← Error err;
    rnd_JSON StatusBadRequest
      {[ "message" := Str "invalid request"; "error" := Str msg ]}
  else if String.eqb (Title t) "" then
    rnd_JSON StatusBadRequest
      {[ "message" := Str "title is required"; "error" := Str "bad request" ]}
  else
    let tm := {| m_ID := NewObjectID e;
                 m_Title := Title t;
                 m_Completed := false;
                 m_CreatedAt := Now e |} in
    '(res, err) ← mongo.InsertOne e (codec.Marshal tm);
    if negb (is_nil err) then
      msg ← Error err;
      rnd_JSON StatusBadRequest
        {[ "message" := Str "could not create todo"; "error" := Str msg ]}
    else
      r ← deref res;
      rnd_JSON StatusCreated
        {[ "message" := Str "todo created successfully";
           "todo_id" := Any (mongo.InsertedID r) ]}.

Definition updateTodo (e : env) (id : string) (body : json.body) : Go unit :=
  if negb (IsValidObjectID id) then
    rnd_JSON StatusBadRequest
      {[ "message" := Str "invalid id"; "error" := Str "bad request" ]}
  else
    let '(t, err) := json.Decode parse_time body zero_todo in
    if negb (is_nil err) then
      msg ← Error err;
      rnd_JSON StatusBadRequest
        {[ "message" := Str "invalid request"; "error" := Str msg ]}
    else
      let objID := default NilObjectID (ObjectIDFromHex id) in
      let update : bson.M :=
        {[ "title" := bson.String_ (Title t);
           "completed" := bson.String_ (Completed t) ]} in
      '(res, err) ← mongo.UpdateOne e {[ "_id" := bson.ObjectID_ objID ]} update;
      failed ← (if negb (is_nil err) then mret true
                else r ← deref res; mret (bool_decide (mongo.MatchedCount r = 0%Z)));
      if (failed : bool) then
        msg ← Error err;
        rnd_JSON StatusBadRequest
          {[ "message" := Str "could not update todo"; "error" := Str msg ]}
      else
        rnd_JSON StatusOK {[ "message" := Str "todo updated successfully" ]}.

Definition todoHandlers (e : env) (r : request) : Go unit :=
  match r with
  | GET_ => fetchTodos e
  | POST body => createTodo e body
  | PUT id body => updateTodo e id body
  | DELETE id => deleteTodo e id
  end.

(** net/http runs a handler under a recover: a panic ends the request,
    without a response, and the process goes on. *)
Definition serve (er : env * request) : Go unit := fun w =>
  match todoHandlers (fst er) (snd er) w with
  | (Panic _, w') => (Return tt, w')
  | r => r
  end.

Fixpoint serve_all (reqs : list (env * request)) : Go unit :=
  match reqs with
  | [] => mret tt
  | er :: reqs' => serve er;; serve_all reqs'
  end.

(** What the store does at startup. *)
Record startup : Type := mk_startup {
  connect_err : option error;
  ping_err : option error
}.

Definition Fatalf {A} (msg : string) : Go A := fun w => (Fatal msg, w).

Definition set_client (c : bool) : Go unit := fun w =>
  (Return tt, mk_world (collection w) c (trace w)).

Definition get_client : Go bool := fun w => (Return (client w), w).

Definition init (s : startup) : Go unit :=
  emit (E_Connect hostName);;
  set_client (is_nil (connect_err s));;
  if negb (is_nil (connect_err s)) then
    msg ← Error (connect_err s);
    Fatalf ("Failed to connect to MongoDB: " ++ msg)
  else
    emit E_Ping;;
    if negb (is_nil (ping_err s)) then
      msg ← Error (ping_err s);
      Fatalf ("Failed to ping MongoDB: " ++ msg)
    else
      emit (E_Println "Successfully connected to MongoDB").

(** [main]: the listener is started on a goroutine of its own and serves
    [reqs] while [main] waits on [stopChan]; what [main] does once the
    interrupt is received is sequential. *)
Definition main (reqs : list (env * request)) : Go unit :=
  emit E_Notify;;
  emit (E_go_ListenAndServe port);;
  serve_all reqs;;
  emit E_Interrupt;;
  emit (E_Println "shutting down server...");;
  c ← get_client;
  (if (c : bool) then
     emit E_Disconnect;;
     emit (E_Println "Closed MongoDB connection")
   else mret tt);;
  emit (E_Shutdown (5 * Second));;
  emit (E_Println "server gracefully stopped").

(** The Go runtime runs [init] before [main]. *)
Definition program (s : startup) (reqs : list (env * request)) : Go unit :=
  init s;; main reqs.

End Handlers.

(* ===================================================================== *)
(** ** Observing a run                                                    *)
(* ===================================================================== *)

(** The effects a computation adds to the trace of [w]. *)
Definition effects {A} (m : Go A) (w : world) : list event :=
  drop (length (trace w)) (trace (snd (m w))).

Definition as_response (e : event) : option (Z * renderer.M) :=
  match e with
  | E_JSON status v => Some (status, v)
  | _ => None
  end.

(** The responses written, with their status. *)
Definition responses {A} (m : Go A) (w : world) : list (Z * renderer.M) :=
  omap as_response (effects m w).

Definition store_calls {A} (m : Go A) (w : world) : list event :=
  List.filter is_store_call (effects m w).

Definition store_after {A} (m : Go A) (w : world) : list bson.M :=
  collection (snd (m w)).

(** The envelope [{message, error}]. *)
Definition error_envelope (v : renderer.M) : Prop :=
  exists msg err : string, v = {[ "message" := Str msg; "error" := Str err ]}.

(** The id a document inserted by [createTodo] ends up with: the one the
    handler generated, or the driver's when [omitempty] dropped a zero one. *)
Definition assigned_id (e : env) : ObjectID :=
  if IsZero (NewObjectID e) then driver_ObjectID e else NewObjectID e.

(** A computation that serves a request: it leaves [client] alone, adds
    only store calls and renderings to the trace, and does not end the
    process. *)
Definition serves {A} (m : Go A) : Prop :=
  forall w, exists (o : outcome A) (c : list bson.M) (l : list event),
    m w = (o, mk_world c (client w) (trace w ++ l))
    /\ Forall (fun ev => serving_event ev = true) l
    /\ (forall msg, o <> Fatal msg).

(** The empty database in which the process starts. *)
Definition initial : world := mk_world [] false [].

(* ===================================================================== *)
(** ** What [rnd.JSON] puts on the wire                                   *)
(* ===================================================================== *)

Section Wire.

(** [time.Time.MarshalJSON]: the RFC 3339 text of an instant, taken as
    given. *)
Variable format_time : Time -> string.

(** A [todo] is encoded by its json tags, in field order. *)
Definition Marshal_todo (t : todo) : json.value :=
  json.Object [ ("id", json.String_ (ID t));
                ("title", json.String_ (Title t));
                ("completed", json.String_ (Completed t));
                ("created_at", json.String_ (format_time (CreatedAt t))) ].

Definition Marshal_value (v : renderer.value) : json.value :=
  match v with
  | Str s => json.String_ s
  | Todos l => json.Array (map Marshal_todo l)
  | Any (bson.ObjectID_ o) => json.String_ (Hex o)
  | Any (bson.String_ s) => json.String_ s
  | Any (bson.Boolean b) => json.Bool b
  | Any (bson.DateTime ms) => json.String_ (format_time (bson.DateTime_Time ms))
  end.

(** The members of the JSON object written for a [renderer.M]. *)
Definition Marshal (m : renderer.M) : gmap string json.value :=
  Marshal_value <$> m.

End Wire.

(* ===================================================================== *)
(** ** Collections written by this service                                *)
(* ===================================================================== *)

(** The [_id] of every stored document, in order. *)
Definition ids (c : list bson.M) : list (option bson.value) :=
  (fun d : bson.M => d !! "_id") <$> c.

(** The document [createTodo] hands to the store for a title, with the
    [_id] it ends up with. *)
Definition created_doc (e : env) (title : string) : bson.M :=
  <["_id" := bson.ObjectID_ (assigned_id e)]>
    (codec.Marshal {| m_ID := NewObjectID e; m_Title := title;
                      m_Completed := false; m_CreatedAt := Now e |}).

(** The pairs [updateTodo] puts under [$set]. *)
Definition set_of (t : todo) : bson.M :=
  {[ "title" := bson.String_ (Title t);
     "completed" := bson.String_ (Completed t) ]}.

(** The view [fetchTodos] builds from a decoded record. *)
Definition view_of (t : todoModel) : todo :=
  {| ID := Hex (m_ID t);
     Title := m_Title t;
     Completed := FormatBool (m_Completed t);
     CreatedAt := m_CreatedAt t |}.

(** The shape of a document the handlers leave in the store: an ObjectID, a
    string title, a creation time, and under [completed] the boolean of
    [createTodo] or the string of [updateTodo]. *)
Definition service_doc (d : bson.M) : Prop :=
  (exists o, d !! "_id" = Some (bson.ObjectID_ o))
  /\ (exists s, d !! "title" = Some (bson.String_ s))
  /\ (exists ms, d !! "createAt" = Some (bson.DateTime ms))
  /\ ((exists b, d !! "completed" = Some (bson.Boolean b))
      \/ (exists s, d !! "completed" = Some (bson.String_ s))).

Definition consistent (c : list bson.M) : Prop :=
  Forall service_doc c /\ NoDup (ids c).

(* ===================================================================== *)
(** ** Sample data                                                        *)
(* ===================================================================== *)

Module sample.

(** A parser that rejects every text; the sample bodies carry no
    [created_at]. *)
Definition no_time : string -> error + Time := fun _ => inl "parsing time".

Definition show_time : Time -> string := fun _ => "1970-01-01T00:00:00Z".

Definition oid : ObjectID := OID x65 x4f x1a x2b x3c x4d x5e x6f x70 x81 x92 xa3.

Definition other : ObjectID := OID x00 x00 x00 x00 x00 x00 x00 x00 x00 x00 x00 x01.

Definition quiet : env :=
  {| NewObjectID := oid; driver_ObjectID := other;
     Now := 1700000000123456789%Z; store_err := None |}.

Definition buy_milk : json.body :=
  json.Document (json.Object [("title", json.String_ "buy milk")]).

Definition buy_milk_done_bool : json.body :=
  json.Document (json.Object [("title", json.String_ "buy milk");
                              ("completed", json.Bool true)]).

Definition buy_milk_done_text : json.body :=
  json.Document (json.Object [("title", json.String_ "buy milk");
                              ("completed", json.String_ "true")]).

Definition x_null : json.body :=
  json.Document (json.Object [("title", json.String_ "x");
                              ("completed", json.Null)]).

Definition x_done_bool : json.body :=
  json.Document (json.Object [("title", json.String_ "x");
                              ("completed", json.Bool true)]).

Definition no_title : json.body := json.Document (json.Object []).

(** The collection after [POST {"title":"buy milk"}] on the empty one. *)
Definition one_todo : world :=
  mk_world (store_after (createTodo no_time quiet buy_milk) initial) true [].

End sample.

(** Requests and collections used to instantiate the further properties. *)
Module fixture.

Definition later : env :=
  {| NewObjectID := sample.other; driver_ObjectID := sample.other;
     Now := 1700000001000000000%Z; store_err := None |}.


(** The record [POST {"title":"buy milk"}] stores, and what reads back. *)
Definition stored : bson.M := created_doc sample.quiet "buy milk".

Definition buy_milk_read : todoModel :=
  {| m_ID := sample.oid; m_Title := "buy milk"; m_Completed := false;
     m_CreatedAt := 1700000000123000000%Z |}.

End fixture.

(* ===================================================================== *)
(** ** ObjectID hex coding                                                *)
(* ===================================================================== *)

Lemma decode_encode_byte (b : byte) :
  hex.decode_pair (hex.digit (Byte.to_N b / 16)) (hex.digit (Byte.to_N b mod 16))
  = Some b.
Proof. destruct b; reflexivity. Qed.

Lemma Hex_length (o : ObjectID) : String.length (Hex o) = 24.
Proof. destruct o; reflexivity. Qed.

Lemma DecodeString_encode_byte (b : byte) (s : string) :
  hex.DecodeString (hex.encode_byte b +:+ s)
  = match hex.DecodeString s with
    | Some bs => Some (b :: bs)
    | None => None
    end.
Proof.
  unfold hex.encode_byte. simpl. by rewrite decode_encode_byte.
Qed.

Lemma DecodeString_EncodeToString (bs : list byte) :
  hex.DecodeString (hex.EncodeToString bs) = Some bs.
Proof.
  induction bs as [|b bs IH]; [reflexivity|].
  cbn [hex.EncodeToString]. by rewrite DecodeString_encode_byte, IH.
Qed.

(** [Hex] is the canonical text of an id: [ObjectIDFromHex] reads it back. *)
Lemma ObjectIDFromHex_Hex (o : ObjectID) : ObjectIDFromHex (Hex o) = Some o.
Proof.
  unfold ObjectIDFromHex. rewrite Hex_length. cbn [Nat.eqb].
  unfold Hex. rewrite DecodeString_EncodeToString. by destruct o.
Qed.

(** Two characters at a time. *)
Lemma string_pair_ind (P : string -> Prop) :
  P "" ->
  (forall c, P (String c "")) ->
  (forall a b s, P s -> P (String a (String b s))) ->
  forall s, P s.
Proof.
  intros H0 H1 H2 s.
  assert (H : P s /\ forall c, P (String c s)); [|exact (proj1 H)].
  induction s as [|c s [IH1 IH2]]; [by split | split; [apply IH2|]].
  intros c'. by apply H2.
Qed.

Lemma fromHexChar_is_hex_digit (c : ascii) :
  is_hex_digit c = match hex.fromHexChar c with Some _ => true | None => false end.
Proof. destruct c as [[] [] [] [] [] [] [] []]; reflexivity. Qed.

Lemma fromHexChar_nibble (c : ascii) (n : N) :
  hex.fromHexChar c = Some n -> (n < 16)%N.
Proof.
  destruct c as [[] [] [] [] [] [] [] []]; vm_compute; intros [= <-] || intros [=];
    reflexivity.
Qed.

Lemma decode_pair_hex (hi lo : ascii) :
  is_Some (hex.decode_pair hi lo)
  <-> is_hex_digit hi = true /\ is_hex_digit lo = true.
Proof.
  rewrite !fromHexChar_is_hex_digit. unfold hex.decode_pair.
  destruct (hex.fromHexChar hi) as [h|] eqn:Hh;
    [|split; [by intros [? [=]] | by intros [[=] _]]].
  destruct (hex.fromHexChar lo) as [l|] eqn:Hl;
    [|split; [by intros [? [=]] | by intros [_ [=]]]].
  split; [done|]. intros _.
  apply fromHexChar_nibble in Hh, Hl.
  destruct (Byte.of_N (h * 16 + l)) as [b|] eqn:E; [by eexists|].
  apply Byte.of_N_None_iff in E. lia.
Qed.

(** [hex.DecodeString] succeeds exactly on an even number of hex digits,
    and yields one byte for every two of them. *)
Lemma DecodeString_hex (s : string) :
  (forall bs, hex.DecodeString s = Some bs -> String.length s = 2 * length bs)
  /\ (is_Some (hex.DecodeString s)
      <-> Nat.even (String.length s) = true
          /\ forallb is_hex_digit (list_ascii_of_string s) = true).
Proof.
  induction s as [| c | a b s [IHl IH]] using string_pair_ind.
  - split; [by intros bs [= <-] | by split; [|eexists]].
  - split; [by intros bs [=]|]. split; [by intros [? [=]] | by intros [[=] _]].
  - cbn [hex.DecodeString String.length list_ascii_of_string forallb Nat.even].
    pose proof (decode_pair_hex a b) as Hp.
    destruct (hex.decode_pair a b) as [x|].
    2:{ split; [by intros bs [=]|]. split; [by intros [? [=]]|].
        intros [_ H]. apply andb_prop in H as [Ha H].
        apply andb_prop in H as [Hb _].
        by destruct (proj2 Hp (conj Ha Hb)). }
    destruct (proj1 Hp ltac:(by eexists)) as [-> ->]. cbn [andb].
    destruct (hex.DecodeString s) as [bs|].
    + split; [intros ? [= <-]; cbn [length]; rewrite (IHl bs eq_refl); lia|].
      split; [intros _; by apply IH | by eexists].
    + split; [by intros bs [=]|]. rewrite <- IH.
      split; by intros [? [=]].
Qed.

(** A path id passes [IsValidObjectID] exactly when it is 24 hex digits. *)
Lemma IsValidObjectID_spec (s : string) :
  IsValidObjectID s = true
  <-> String.length s = 24
      /\ forallb is_hex_digit (list_ascii_of_string s) = true.
Proof.
  unfold IsValidObjectID, ObjectIDFromHex.
  destruct (DecodeString_hex s) as [Hl Hd].
  destruct (Nat.eqb_spec (String.length s) 24) as [L|L];
    [|split; [done | by intros [? _]]].
  destruct (hex.DecodeString s) as [bs|].
  - specialize (Hl bs eq_refl). rewrite L in Hl.
    destruct (proj1 Hd ltac:(by eexists)) as [_ Hh].
    do 13 (destruct bs as [|? bs]; try (cbn [length] in Hl; lia)).
    by split.
  - split; [done|]. intros [_ Hh]. rewrite L in Hd.
    by destruct (proj2 Hd (conj eq_refl Hh)).
Qed.

Lemma IsValidObjectID_Hex (o : ObjectID) : IsValidObjectID (Hex o) = true.
Proof. unfold IsValidObjectID. by rewrite ObjectIDFromHex_Hex. Qed.

Lemma Hex_inj (a b : ObjectID) : Hex a = Hex b -> a = b.
Proof.
  intros E. apply (f_equal ObjectIDFromHex) in E.
  rewrite !ObjectIDFromHex_Hex in E. congruence.
Qed.


(* ===================================================================== *)
(** ** Running the monad                                                  *)
(* ===================================================================== *)

Lemma effects_record {A} (m : Go A) (w : world) (r : outcome A) (e : event) :
  m w = (r, record e w) -> effects m w = [e].
Proof.
  intros E. unfold effects. rewrite E. simpl. apply drop_app_length.
Qed.

Lemma effects_trace {A} (m : Go A) (w : world) (l : list event) :
  trace (snd (m w)) = (trace w ++ l)%list -> effects m w = l.
Proof. intros E. unfold effects. rewrite E. apply drop_app_length. Qed.

Lemma bind_run {A B} (m : Go A) (f : A -> Go B) (w : world) :
  (m ≫= f) w =
  match m w with
  | (Return a, w') => f a w'
  | (Panic msg, w') => (Panic msg, w')
  | (Fatal msg, w') => (Fatal msg, w')
  end.
Proof. reflexivity. Qed.

Lemma rnd_JSON_run (status : Z) (v : renderer.M) (w : world) :
  rnd_JSON status v w = (Return tt, record (E_JSON status v) w).
Proof. reflexivity. Qed.

Lemma observe {A} (m : Go A) (w w' : world) (r : outcome A) (l : list event) :
  m w = (r, w') ->
  trace w' = (trace w ++ l)%list ->
  effects m w = l /\ store_after m w = collection w' /\ fst (m w) = r.
Proof.
  intros E T. unfold store_after. rewrite (effects_trace m w l); rewrite E; done.
Qed.

(** Runs the binds, nil tests and renderings of a handler body. *)
Ltac step_go :=
  repeat first
    [ rewrite bind_run
    | rewrite rnd_JSON_run
    | progress cbn [negb is_nil Error deref mret Go_ret panic] ].

(** The effects of a run whose final world is explicit. *)
Ltac by_trace :=
  step_go;
  cbn [snd trace record mongo.with_collection collection client];
  rewrite <- ?app_assoc; reflexivity.

(** The observations that follow from a run that only renders [v]. *)
Lemma only_renders {A} (m : Go A) (w : world) (a : A) (status : Z)
    (v : renderer.M) :
  m w = (Return a, record (E_JSON status v) w) ->
  responses m w = [(status, v)]
  /\ store_calls m w = []
  /\ store_after m w = collection w.
Proof.
  intros E. unfold responses, store_calls, store_after.
  rewrite (effects_record _ _ _ _ E), E. by repeat split.
Qed.

Section Properties.

Variable parse_time : string -> error + Time.
Variable format_time : Time -> string.

(** A malformed id ends either handler at its first test. *)
Lemma malformed_id_run (e : env) (id : string) (body : json.body)
    (w : world) (r : request) :
  IsValidObjectID id = false ->
  r = PUT id body \/ r = DELETE id ->
  todoHandlers parse_time e r w
  = (Return tt,
     record (E_JSON StatusBadRequest
               {[ "message" := Str "invalid id"; "error" := Str "bad request" ]}) w).
Proof.
  intros Hid [-> | ->]; unfold todoHandlers, updateTodo, deleteTodo;
    rewrite Hid; reflexivity.
Qed.

(** C6.  A PUT or DELETE whose path id is not a valid ObjectID hex string
    is answered with the 400 envelope [{message, error}] and nothing
    else happens: no store call is made and the collection is as it
    was. *)
Theorem C6_malformed_id_fails_fast (e : env) (id : string) (body : json.body)
    (w : world) (r : request) :
  IsValidObjectID id = false ->
  r = PUT id body \/ r = DELETE id ->
  exists v : renderer.M,
    todoHandlers parse_time e r w
      = (Return tt, record (E_JSON StatusBadRequest v) w)
    /\ error_envelope v
    /\ responses (todoHandlers parse_time e r) w = [(StatusBadRequest, v)]
    /\ store_calls (todoHandlers parse_time e r) w = []
    /\ store_after (todoHandlers parse_time e r) w = collection w.
Proof.
  intros Hid Hr.
  pose proof (malformed_id_run e id body w r Hid Hr) as E.
  eexists. split; [exact E|].
  split; [by exists "invalid id", "bad request"|].
  exact (only_renders _ _ _ _ _ E).
Qed.

(** C5.  A POST whose body does not decode, or decodes to an empty title
    (an absent title leaves the zero value), is answered with the 400
    envelope [{message, error}]; no insert is attempted and the
    collection is as it was. *)
Theorem C5_invalid_create_inserts_nothing (e : env) (body : json.body)
    (w : world) :
  snd (json.Decode parse_time body zero_todo) <> None
  \/ Title (fst (json.Decode parse_time body zero_todo)) = "" ->
  exists v : renderer.M,
    createTodo parse_time e body w
      = (Return tt, record (E_JSON StatusBadRequest v) w)
    /\ error_envelope v
    /\ responses (createTodo parse_time e body) w = [(StatusBadRequest, v)]
    /\ store_calls (createTodo parse_time e body) w = []
    /\ store_after (createTodo parse_time e body) w = collection w.
Proof.
  intros H. unfold createTodo.
  destruct (json.Decode parse_time body zero_todo) as [t [err|]] eqn:D;
    cbn [fst snd negb is_nil] in *.
  - eexists. split; [reflexivity|].
    split; [by eexists _, _|]. eapply only_renders; reflexivity.
  - destruct H as [H | H]; [done|]. rewrite H.
    eexists. split; [reflexivity|].
    split; [by eexists _, _|]. eapply only_renders; reflexivity.
Qed.

(** C4.  A POST whose body decodes to a non-empty title makes one
    [InsertOne] call.  When the call succeeds (no transport error, id not
    yet in the collection) exactly one document is appended: its
    [completed] is the boolean false whatever the body said, its [_id] is
    the id generated on the server and was in no stored document, its
    [createAt] is the server's clock reading, its [title] the decoded one;
    the response is 201 with that id as [todo_id], written as its 24-digit
    hex text.  When the call fails nothing is stored and the response is
    the 400 envelope. *)
Theorem C4_create_inserts_fresh_uncompleted (e : env) (body : json.body)
    (w : world) (t : todo) :
  json.Decode parse_time body zero_todo = (t, None) ->
  Title t <> "" ->
  let id := assigned_id e in
  let run := createTodo parse_time e body in
  fst (run w) = Return tt
  /\ if is_nil (store_err e)
        && negb (existsb (mongo.has_id (bson.ObjectID_ id)) (collection w))
     then
       exists doc : bson.M,
         store_after run w = (collection w ++ [doc])%list
         /\ doc !! "completed" = Some (bson.Boolean false)
         /\ doc !! "_id" = Some (bson.ObjectID_ id)
         /\ Forall (fun d : bson.M => d !! "_id" <> Some (bson.ObjectID_ id))
              (collection w)
         /\ doc !! "createAt"
            = Some (bson.DateTime (bson.NewDateTimeFromTime (Now e)))
         /\ doc !! "title" = Some (bson.String_ (Title t))
         /\ responses run w
            = [(StatusCreated,
                {[ "message" := Str "todo created successfully";
                   "todo_id" := Any (bson.ObjectID_ id) ]})]
         /\ Marshal_value format_time (Any (bson.ObjectID_ id))
            = json.String_ (Hex id)
         /\ String.length (Hex id) = 24
     else
       store_after run w = collection w
       /\ exists v : renderer.M,
            responses run w = [(StatusBadRequest, v)] /\ error_envelope v.
Proof.
  intros D Ht id run.
  assert (Hne : String.eqb (Title t) "" = false)
    by (by apply String.eqb_neq).
  pose (tm := {| m_ID := NewObjectID e; m_Title := Title t;
                 m_Completed := false; m_CreatedAt := Now e |}).
  assert (Hid : default (bson.ObjectID_ (driver_ObjectID e))
                  (codec.Marshal tm !! "_id") = bson.ObjectID_ id).
  { unfold codec.Marshal, id, assigned_id, tm; cbn [m_ID].
    destruct (IsZero (NewObjectID e)); by simplify_map_eq. }
  assert (Hrun : forall w',
    (let '(res, err) :=
       match store_err e with
       | Some err => (None, Some err)
       | None =>
           if existsb (mongo.has_id (bson.ObjectID_ id)) (collection w)
           then (None, Some mongo.duplicate_key)
           else (Some {| mongo.InsertedID := bson.ObjectID_ id |}, None)
       end in
     if negb (is_nil err) then
       msg ← Error err;
       rnd_JSON StatusBadRequest
         {[ "message" := Str "could not create todo"; "error" := Str msg ]}
     else
       r ← deref res;
       rnd_JSON StatusCreated
         {[ "message" := Str "todo created successfully";
            "todo_id" := Any (mongo.InsertedID r) ]})
      (mongo.with_collection
         (if is_nil (store_err e)
             && negb (existsb (mongo.has_id (bson.ObjectID_ id)) (collection w))
          then (collection w ++ [<["_id" := bson.ObjectID_ id]> (codec.Marshal tm)])%list
          else collection w)
         (record (E_InsertOne (codec.Marshal tm)) w)) = w' ->
    run w = w').
  { intros w' <-. subst run. unfold createTodo.
    rewrite D. cbn [negb is_nil]. rewrite Hne. fold tm.
    rewrite bind_run. unfold mongo.InsertOne. rewrite Hid.
    cbn [collection record].
    destruct (store_err e); [by destruct w|].
    destruct (existsb _ _); [by destruct w|]. reflexivity. }
  destruct (store_err e) as [err|] eqn:Herr; cbn [is_nil andb negb].
  - specialize (Hrun _ eq_refl). revert Hrun. step_go. intros E.
    destruct (observe _ _ _ _ _ E ltac:(by_trace)) as (Ef & Es & Er).
    split; [exact Er|]. split; [exact Es|].
    eexists. split; [|by eexists _, _].
    unfold responses. by rewrite Ef.
  - destruct (existsb (mongo.has_id (bson.ObjectID_ id)) (collection w)) eqn:Hex;
      cbn [is_nil andb negb].
    + specialize (Hrun _ eq_refl). revert Hrun. step_go. intros E.
      destruct (observe _ _ _ _ _ E ltac:(by_trace)) as (Ef & Es & Er).
      split; [exact Er|]. split; [exact Es|].
      eexists. split; [|by eexists _, _].
      unfold responses. by rewrite Ef.
    + specialize (Hrun _ eq_refl). revert Hrun. step_go.
      cbn [mongo.InsertedID]. intros E.
      destruct (observe _ _ _ _ _ E ltac:(by_trace)) as (Ef & Es & Er).
      split; [exact Er|].
      exists (<["_id" := bson.ObjectID_ id]> (codec.Marshal tm)).
      split; [exact Es|].
      split; [unfold codec.Marshal, tm; cbn [m_ID m_Completed];
              destruct (IsZero (NewObjectID e)); by simplify_map_eq|].
      split; [by simplify_map_eq|].
      split.
      { apply Forall_forall. intros d Hd Hd'.
        apply not_true_iff_false in Hex. apply Hex, existsb_exists.
        exists d. split; [by apply list_elem_of_In|].
        unfold mongo.has_id. by apply bool_decide_eq_true. }
      split; [unfold codec.Marshal, tm; cbn [m_ID m_CreatedAt];
              destruct (IsZero (NewObjectID e)); by simplify_map_eq|].
      split; [unfold codec.Marshal, tm; cbn [m_ID m_Title];
              destruct (IsZero (NewObjectID e)); by simplify_map_eq|].
      split; [|split; [reflexivity | apply Hex_length]].
      unfold responses. by rewrite Ef.
Qed.

(** *** The store call of [updateTodo] and [deleteTodo] *)

Lemma matches_id (v : bson.value) (d : bson.M) :
  mongo.matches {[ "_id" := v ]} d = mongo.has_id v d.
Proof.
  unfold mongo.matches, mongo.has_id. apply bool_decide_ext.
  apply (map_Forall_singleton (fun k x => d !! k = Some x)).
Qed.

Lemma find_id_None (v : bson.value) (c : list bson.M) :
  existsb (mongo.has_id v) c = false ->
  list_find (fun d => mongo.matches {[ "_id" := v ]} d = true) c = None.
Proof.
  intros H. apply list_find_None, Forall_forall. intros d Hd Hm.
  rewrite matches_id in Hm.
  apply not_true_iff_false in H. apply H, existsb_exists.
  exists d. split; [by apply list_elem_of_In | done].
Qed.

Lemma find_id_Some (v : bson.value) (c : list bson.M) :
  existsb (mongo.has_id v) c = true ->
  exists i d,
    list_find (fun d => mongo.matches {[ "_id" := v ]} d = true) c = Some (i, d)
    /\ c !! i = Some d /\ d !! "_id" = Some v.
Proof.
  intros H. apply existsb_exists in H as (d & Hd & Hm).
  apply list_elem_of_In in Hd.
  destruct (list_find (fun d => mongo.matches {[ "_id" := v ]} d = true) c)
    as [[i d']|] eqn:F.
  - exists i, d'. split; [done|].
    apply list_find_Some in F as (Hi & Hm' & _). split; [done|].
    rewrite matches_id in Hm'. unfold mongo.has_id in Hm'.
    by apply bool_decide_eq_true in Hm'.
  - exfalso. apply list_find_None in F.
    rewrite Forall_forall in F. apply (F d Hd). by rewrite matches_id.
Qed.

(** The four ways [updateTodo] ends once the id is well formed. *)
Lemma updateTodo_run (e : env) (id : string) (oid : ObjectID)
    (body : json.body) (w : world) (t : todo) (err : option error) :
  ObjectIDFromHex id = Some oid ->
  json.Decode parse_time body zero_todo = (t, err) ->
  let filter : bson.M := {[ "_id" := bson.ObjectID_ oid ]} in
  let set : bson.M := {[ "title" := bson.String_ (Title t);
                         "completed" := bson.String_ (Completed t) ]} in
  let called := record (E_UpdateOne filter set) w in
  updateTodo parse_time e id body w =
  match err with
  | Some msg =>
      (Return tt,
       record (E_JSON StatusBadRequest
                 {[ "message" := Str "invalid request"; "error" := Str msg ]}) w)
  | None =>
      match store_err e with
      | Some msg =>
          (Return tt,
           record (E_JSON StatusBadRequest
                     {[ "message" := Str "could not update todo";
                        "error" := Str msg ]}) called)
      | None =>
          match list_find (fun d => mongo.matches filter d = true) (collection w) with
          | None => (Panic nil_dereference, called)
          | Some (i, d) =>
              (Return tt,
               record (E_JSON StatusOK
                         {[ "message" := Str "todo updated successfully" ]})
                 (mongo.with_collection (<[i := set ∪ d]> (collection w)) called))
          end
      end
  end.
Proof.
  intros Hid D filter set called. unfold updateTodo, IsValidObjectID.
  rewrite Hid, D. cbn [negb default].
  destruct err as [msg|]; [reflexivity|]. cbn [negb is_nil].
  rewrite bind_run. unfold mongo.UpdateOne.
  destruct (store_err e) as [msg|]; [reflexivity|].
  cbn [collection record]. fold filter set.
  destruct (list_find _ _) as [[i d]|]; reflexivity.
Qed.

(** The three ways [deleteTodo] ends once the id is well formed. *)
Lemma deleteTodo_run (e : env) (id : string) (oid : ObjectID) (w : world) :
  ObjectIDFromHex id = Some oid ->
  let filter : bson.M := {[ "_id" := bson.ObjectID_ oid ]} in
  let called := record (E_DeleteOne filter) w in
  deleteTodo e id w =
  match store_err e with
  | Some msg =>
      (Return tt,
       record (E_JSON StatusBadRequest
                 {[ "message" := Str "could not delete todo";
                    "error" := Str msg ]}) called)
  | None =>
      match list_find (fun d => mongo.matches filter d = true) (collection w) with
      | None => (Panic nil_dereference, called)
      | Some (i, d) =>
          (Return tt,
           record (E_JSON StatusOK
                     {[ "message" := Str "todo deleted successfully" ]})
             (mongo.with_collection (delete i (collection w)) called))
      end
  end.
Proof.
  intros Hid filter called. unfold deleteTodo, IsValidObjectID.
  rewrite Hid. cbn [negb default].
  rewrite bind_run. unfold mongo.DeleteOne.
  destruct (store_err e) as [msg|]; [reflexivity|].
  cbn [collection record]. fold filter.
  destruct (list_find _ _) as [[i d]|]; reflexivity.
Qed.

(** C1 (amended).  A PUT whose path id is a well-formed ObjectID hex
    string naming a stored record is always answered: with the 200
    envelope [{message}] when the body decodes into the wire struct and
    the store call succeeds, and with a 400 envelope [{message, error}]
    otherwise.  A body [{title: string, completed: string}] decodes; a body
    [{title: string, completed: bool}] does not, as the wire struct holds
    [completed] as text. *)
Theorem C1_update_of_existing_record (e : env) (id : string) (oid : ObjectID)
    (body : json.body) (w : world) :
  ObjectIDFromHex id = Some oid ->
  existsb (mongo.has_id (bson.ObjectID_ oid)) (collection w) = true ->
  let run := updateTodo parse_time e id body in
  fst (run w) = Return tt
  /\ (if is_nil (snd (json.Decode parse_time body zero_todo))
         && is_nil (store_err e)
      then responses run w
           = [(StatusOK, {[ "message" := Str "todo updated successfully" ]})]
      else exists v : renderer.M,
             responses run w = [(StatusBadRequest, v)] /\ error_envelope v)
  /\ (forall title completed : string,
        json.Decode parse_time
          (json.Document (json.Object [("title", json.String_ title);
                                       ("completed", json.String_ completed)]))
          zero_todo
        = ({| ID := ""; Title := title; Completed := completed;
              CreatedAt := zero_Time |}, None))
  /\ (forall (title : string) (completed : bool),
        snd (json.Decode parse_time
               (json.Document (json.Object [("title", json.String_ title);
                                            ("completed", json.Bool completed)]))
               zero_todo)
        <> None).
Proof.
  intros Hid Hex run.
  destruct (json.Decode parse_time body zero_todo) as [t err] eqn:D.
  pose proof (updateTodo_run e id oid body w t err Hid D) as E.
  cbn zeta in E. fold run in E. cbn [snd].
  destruct (find_id_Some _ _ Hex) as (i & d & F & _ & _).
  rewrite F in E.
  split; [|split; [|split; [reflexivity | done]]].
  - rewrite E. by destruct err, (store_err e).
  - destruct err as [msg|]; cbn [is_nil andb];
      [|destruct (store_err e) as [msg|]; cbn [is_nil]].
    + destruct (observe _ _ _ _ _ E ltac:(by_trace)) as (Ef & _).
      eexists. split; [|by eexists _, _]. unfold responses. by rewrite Ef.
    + destruct (observe _ _ _ _ _ E ltac:(by_trace)) as (Ef & _).
      eexists. split; [|by eexists _, _]. unfold responses. by rewrite Ef.
    + destruct (observe _ _ _ _ _ E ltac:(by_trace)) as (Ef & _).
      unfold responses. by rewrite Ef.
Qed.

(** A well-formed id that names no stored record: the store call succeeds
    with a zero count, the handler takes the failure branch and calls
    [err.Error()] on the nil error. *)
Lemma absent_id_panics (e : env) (id : string) (oid : ObjectID)
    (body : json.body) (w : world) (r : request) :
  ObjectIDFromHex id = Some oid ->
  existsb (mongo.has_id (bson.ObjectID_ oid)) (collection w) = false ->
  store_err e = None ->
  r = DELETE id
  \/ (r = PUT id body /\ snd (json.Decode parse_time body zero_todo) = None) ->
  let run := todoHandlers parse_time e r in
  fst (run w) = Panic nil_dereference
  /\ responses run w = []
  /\ store_after run w = collection w.
Proof.
  intros Hid Hex Herr Hr run.
  pose proof (find_id_None _ _ Hex) as F.
  destruct Hr as [-> | [-> D]]; subst run; unfold todoHandlers.
  - pose proof (deleteTodo_run e id oid w Hid) as E. cbn zeta in E.
    rewrite Herr, F in E.
    destruct (observe _ _ _ _ _ E ltac:(by_trace)) as (Ef & Es & Er).
    unfold responses. by rewrite Ef, Es, Er.
  - destruct (json.Decode parse_time body zero_todo) as [t err] eqn:D'.
    cbn [snd] in D. subst err.
    pose proof (updateTodo_run e id oid body w t None Hid D') as E.
    cbn zeta in E. rewrite Herr, F in E.
    destruct (observe _ _ _ _ _ E ltac:(by_trace)) as (Ef & Es & Er).
    unfold responses. by rewrite Ef, Es, Er.
Qed.

(** C7.  When an update succeeds (the response is 200), one stored
    record, whose [_id] is the path id, had the pairs [title] and
    [completed] overwritten; every other key of that record, [_id] and
    [createAt] among them, and every other record of the collection are as
    before. *)
Theorem C7_update_frame (e : env) (id : string) (body : json.body)
    (w : world) (v : renderer.M) :
  responses (updateTodo parse_time e id body) w = [(StatusOK, v)] ->
  exists (oid : ObjectID) (i : nat) (d d' : bson.M),
    ObjectIDFromHex id = Some oid
    /\ collection w !! i = Some d
    /\ d !! "_id" = Some (bson.ObjectID_ oid)
    /\ store_after (updateTodo parse_time e id body) w
       = <[i := d']> (collection w)
    /\ d' !! "title"
       = Some (bson.String_ (Title (fst (json.Decode parse_time body zero_todo))))
    /\ d' !! "completed"
       = Some (bson.String_ (Completed (fst (json.Decode parse_time body zero_todo))))
    /\ (forall k : string, k <> "title" -> k <> "completed" -> d' !! k = d !! k)
    /\ d' !! "_id" = d !! "_id"
    /\ d' !! "createAt" = d !! "createAt"
    /\ (forall j : nat, j <> i ->
          store_after (updateTodo parse_time e id body) w !! j = collection w !! j)
    /\ length (store_after (updateTodo parse_time e id body) w)
       = length (collection w).
Proof.
  intros R.
  destruct (ObjectIDFromHex id) as [oid|] eqn:Hid.
  2:{ exfalso.
      assert (V : IsValidObjectID id = false)
        by (unfold IsValidObjectID; by rewrite Hid).
      pose proof (malformed_id_run e id body w _ V (or_introl eq_refl)) as E.
      destruct (only_renders _ _ _ _ _ E) as (R' & _).
      unfold todoHandlers in R'. rewrite R' in R. discriminate. }
  destruct (json.Decode parse_time body zero_todo) as [t err] eqn:D.
  pose proof (updateTodo_run e id oid body w t err Hid D) as E.
  cbn zeta in E. cbn [fst].
  destruct err as [msg|]; [|destruct (store_err e) as [msg|]];
    [| |destruct (list_find _ _) as [[i d]|] eqn:F].
  1-2,4: destruct (observe _ _ _ _ _ E ltac:(by_trace)) as (Ef & _);
         unfold responses in R; rewrite Ef in R; discriminate.
  destruct (observe _ _ _ _ _ E ltac:(by_trace)) as (_ & Es & _).
  cbn [collection record mongo.with_collection] in Es.
  apply list_find_Some in F as (Hi & Hm & _).
  rewrite matches_id in Hm. apply bool_decide_eq_true in Hm.
  exists oid, i, d. eexists. rewrite Es.
  split; [done|]. split; [done|]. split; [done|]. split; [reflexivity|].
  split; [by simplify_map_eq|]. split; [by simplify_map_eq|].
  split.
  { intros k H1 H2. rewrite lookup_union_r; [done|]. by simplify_map_eq. }
  split; [rewrite lookup_union_r; [done | by simplify_map_eq]|].
  split; [rewrite lookup_union_r; [done | by simplify_map_eq]|].
  split; [intros j Hj; by apply list_lookup_insert_ne | apply length_insert].
Qed.

(** *** Listing *)

Lemma filter_matches_empty (c : list bson.M) :
  List.filter (mongo.matches ∅) c = c.
Proof.
  induction c as [|d c IH]; [reflexivity|]. cbn [List.filter].
  unfold mongo.matches at 1.
  rewrite bool_decide_eq_true_2 by apply map_Forall_empty. by rewrite IH.
Qed.

Lemma foldl_snoc_map {A B} (f : A -> B) (l : list A) (acc : list B) :
  foldl (fun acc a => (acc ++ [f a])%list) acc l = (acc ++ map f l)%list.
Proof.
  revert acc. induction l as [|a l IH]; intros acc; cbn [foldl map].
  - by rewrite app_nil_r.
  - rewrite IH, <- app_assoc. reflexivity.
Qed.

Lemma All_decodes (docs : list bson.M) (tms : list todoModel) :
  codec.All docs = (tms, None) ->
  Forall2 (fun d tm => codec.Unmarshal d = inr tm) docs tms.
Proof.
  revert tms. induction docs as [|d docs IH]; intros tms; cbn [codec.All].
  - intros [= <-]. constructor.
  - destruct (codec.Unmarshal d) as [err|tm] eqn:U; [discriminate|].
    destruct (codec.All docs) as [tms' [err|]]; [discriminate|].
    intros [= <-]. constructor; [done | by apply IH].
Qed.

(** What a decoded model holds for the keys a document has. *)
Lemma Unmarshal_fields (d : bson.M) (tm : todoModel) :
  codec.Unmarshal d = inr tm ->
  (forall o, d !! "_id" = Some (bson.ObjectID_ o) -> m_ID tm = o)
  /\ (forall s, d !! "title" = Some (bson.String_ s) -> m_Title tm = s)
  /\ (forall b, d !! "completed" = Some (bson.Boolean b) -> m_Completed tm = b)
  /\ (forall ms, d !! "createAt" = Some (bson.DateTime ms) ->
        m_CreatedAt tm = bson.DateTime_Time ms)
  /\ (forall s, d !! "completed" <> Some (bson.String_ s)).
Proof.
  unfold codec.Unmarshal. intros U.
  destruct (d !! "_id") as [[]|], (d !! "title") as [[]|],
    (d !! "completed") as [[]|], (d !! "createAt") as [[]|];
    try discriminate; injection U as <-; cbn;
    repeat split; congruence.
Qed.

(** The three ways [fetchTodos] ends. *)
Lemma fetchTodos_run (e : env) (w : world) :
  let called := record (E_Find ∅) w in
  fetchTodos e w =
  match store_err e with
  | Some msg =>
      (Return tt,
       record (E_JSON StatusBadRequest
                 {[ "message" := Str "could not fetch todos";
                    "error" := Str msg ]}) called)
  | None =>
      match codec.All (collection w) with
      | (_, Some msg) =>
          (Return tt,
           record (E_JSON StatusBadRequest
                     {[ "message" := Str "could not decode todos";
                        "error" := Str msg ]}) called)
      | (todos, None) =>
          (Return tt,
           record (E_JSON StatusOK
                     {[ "data" :=
                          Todos (map (fun t =>
                                        {| ID := Hex (m_ID t);
                                           Title := m_Title t;
                                           Completed := FormatBool (m_Completed t);
                                           CreatedAt := m_CreatedAt t |}) todos) ]})
             called)
      end
  end.
Proof.
  intros called. unfold fetchTodos. rewrite bind_run. unfold mongo.Find.
  destruct (store_err e) as [msg|]; [reflexivity|].
  cbn [collection record]. rewrite filter_matches_empty.
  step_go. destruct (codec.All (collection w)) as [todos [msg|]];
    step_go; [reflexivity|].
  by rewrite foldl_snoc_map.
Qed.

(** C8.  When the list operation succeeds, its response is the envelope
    [{data: [...]}] holding one view per stored record, in order.  In each
    view [completed] is the text "true" or "false", the text of the stored
    boolean, and goes on the wire as a JSON string; [id] is the hex text of
    the stored [_id], from which the id can be read back; [title] and the
    creation time are the stored ones. *)
Theorem C8_list_renders_views (e : env) (w : world) (v : renderer.M) :
  responses (fetchTodos e) w = [(StatusOK, v)] ->
  exists views : list todo,
    v = {[ "data" := Todos views ]}
    /\ Marshal format_time v
       = {[ "data" := json.Array (map (Marshal_todo format_time) views) ]}
    /\ Forall2
         (fun (d : bson.M) (view : todo) =>
            (Completed view = "true" \/ Completed view = "false")
            /\ Marshal_todo format_time view
               = json.Object
                   [ ("id", json.String_ (ID view));
                     ("title", json.String_ (Title view));
                     ("completed", json.String_ (Completed view));
                     ("created_at", json.String_ (format_time (CreatedAt view))) ]
            /\ (forall b, d !! "completed" = Some (bson.Boolean b) ->
                  Completed view = FormatBool b)
            /\ (forall o, d !! "_id" = Some (bson.ObjectID_ o) ->
                  ID view = Hex o /\ ObjectIDFromHex (ID view) = Some o)
            /\ (forall s, d !! "title" = Some (bson.String_ s) -> Title view = s)
            /\ (forall ms, d !! "createAt" = Some (bson.DateTime ms) ->
                  CreatedAt view = bson.DateTime_Time ms))
         (collection w) views.
Proof.
  intros R. pose proof (fetchTodos_run e w) as E. cbn zeta in E.
  destruct (store_err e) as [msg|];
    [|destruct (codec.All (collection w)) as [todos [msg|]] eqn:A];
    destruct (observe _ _ _ _ _ E ltac:(by_trace)) as (Ef & _);
    unfold responses in R; rewrite Ef in R; [discriminate..|].
  injection R as <-. eexists. split; [reflexivity|].
  split; [unfold Marshal; by rewrite map_fmap_singleton|].
  apply All_decodes in A. apply Forall2_fmap_r.
  eapply Forall2_impl; [exact A|]. clear. intros d tm U. cbn.
  destruct (Unmarshal_fields d tm U) as (Hi & Ht & Hc & Hd & _).
  split; [by destruct (m_Completed tm); [left | right]|].
  split; [reflexivity|].
  split; [intros b Hb; by rewrite (Hc b Hb)|].
  split; [intros o Ho; rewrite (Hi o Ho); split;
          [done | apply ObjectIDFromHex_Hex]|].
  split; [intros s Hs; by rewrite (Ht s Hs) | intros ms Hm; by rewrite (Hd ms Hm)].
Qed.

(** *** Decoding the request body *)

Lemma object_saved (ms : list (string * json.value)) (t : todo) (e : error) :
  snd (json.object parse_time ms t (Some e)) <> None.
Proof.
  revert t. induction ms as [|[k v] ms IH]; intros t; cbn [json.object];
    [done|].
  destruct (json.field_of_key k) as [f|]; [|apply IH].
  destruct (json.store_field parse_time f v t); [apply IH | apply IH | done].
Qed.

(** A body decodes without error only if every member that names
    [completed] is a JSON string or null. *)
Lemma object_completed (ms : list (string * json.value)) (t : todo)
    (saved : option error) :
  snd (json.object parse_time ms t saved) = None ->
  forall k v, (k, v) ∈ ms -> json.field_of_key k = Some json.F_completed ->
    (exists s, v = json.String_ s) \/ v = json.Null.
Proof.
  revert t saved. induction ms as [|[k0 v0] ms IH]; intros t saved H k v Hin Hk.
  - by apply not_elem_of_nil in Hin.
  - cbn [json.object] in H. apply elem_of_cons in Hin as [[= -> ->] | Hin].
    + rewrite Hk in H. cbn [json.store_field] in H.
      destruct v0; [by right | | | by left; eexists | |];
        exfalso; destruct saved; by eapply object_saved.
    + destruct (json.field_of_key k0) as [f|]; [|by eapply IH].
      destruct (json.store_field parse_time f v0 t); [by eapply IH | | done].
      exfalso. destruct saved; by eapply object_saved.
Qed.

(** C10 (amended).  A POST whose body is an object with a boolean under a
    key naming [completed] is a parse failure: the response is the 400
    envelope of "invalid request", no insert is attempted and the
    collection is as it was.  A body that decodes has, under every key
    naming [completed], a JSON string or null. *)
Theorem C10_boolean_completed_is_a_parse_failure (e : env)
    (ms : list (string * json.value)) (w : world) :
  (exists k b, (k, json.Bool b) ∈ ms
               /\ json.field_of_key k = Some json.F_completed) ->
  let run := createTodo parse_time e (json.Document (json.Object ms)) in
  (exists msg : string,
     run w = (Return tt,
              record (E_JSON StatusBadRequest
                        {[ "message" := Str "invalid request";
                           "error" := Str msg ]}) w))
  /\ store_calls run w = []
  /\ store_after run w = collection w
  /\ (forall ms' : list (string * json.value),
        snd (json.Decode parse_time (json.Document (json.Object ms')) zero_todo)
        = None ->
        forall k v, (k, v) ∈ ms' ->
          json.field_of_key k = Some json.F_completed ->
          (exists s, v = json.String_ s) \/ v = json.Null).
Proof.
  intros (k & b & Hin & Hk) run.
  assert (E : exists msg : string,
             run w = (Return tt,
                      record (E_JSON StatusBadRequest
                                {[ "message" := Str "invalid request";
                                   "error" := Str msg ]}) w)).
  { subst run. unfold createTodo.
    destruct (json.Decode parse_time (json.Document (json.Object ms)) zero_todo)
      as [t [msg|]] eqn:D.
    - exists msg. reflexivity.
    - exfalso. cbn [json.Decode] in D.
      destruct (object_completed ms zero_todo None ltac:(by rewrite D) k _ Hin Hk)
        as [[s ?] | ?]; discriminate. }
  split; [exact E|]. destruct E as [msg E].
  destruct (only_renders _ _ _ _ _ E) as (_ & Hc & Hs).
  split; [exact Hc|]. split; [exact Hs|].
  intros ms' D. cbn [json.Decode] in D. by eapply object_completed.
Qed.

(** *** Serving requests and shutting down *)

Lemma serves_ret {A} (a : A) : serves (mret a).
Proof.
  intros w. exists (Return a), (collection w), [].
  rewrite app_nil_r. by destruct w.
Qed.

Lemma serves_panic {A} (msg : string) : serves (@panic A msg).
Proof.
  intros w. exists (Panic msg), (collection w), [].
  rewrite app_nil_r. by destruct w.
Qed.

Lemma serves_bind {A B} (m : Go A) (f : A -> Go B) :
  serves m -> (forall a, serves (f a)) -> serves (m ≫= f).
Proof.
  intros Hm Hf w. rewrite bind_run.
  destruct (Hm w) as (o & c & l & -> & Hl & Ho).
  destruct o as [a|msg|msg]; [|by exists (Panic msg), c, l | by destruct (Ho msg)].
  destruct (Hf a (mk_world c (client w) (trace w ++ l)))
    as (o' & c' & l' & -> & Hl' & Ho').
  exists o', c', (l ++ l')%list. cbn [client trace]. rewrite app_assoc.
  split; [done|]. split; [by apply Forall_app | done].
Qed.

Lemma serves_emit (ev : event) : serving_event ev = true -> serves (emit ev).
Proof.
  intros H w. exists (Return tt), (collection w), [ev].
  split; [reflexivity|]. split; [by constructor | done].
Qed.

Lemma serves_rnd_JSON (status : Z) (v : renderer.M) : serves (rnd_JSON status v).
Proof. by apply serves_emit. Qed.

Lemma serves_Error (err : option error) : serves (Error err).
Proof. destruct err; [apply serves_ret | apply serves_panic]. Qed.

Lemma serves_deref {A} (p : option A) : serves (deref p).
Proof. destruct p; [apply serves_ret | apply serves_panic]. Qed.

Lemma serves_Find (e : env) (filter : bson.M) : serves (mongo.Find e filter).
Proof.
  intros w. unfold mongo.Find.
  destruct (store_err e); eexists _, (collection w), [_];
    (split; [reflexivity|]); by repeat constructor.
Qed.

Lemma serves_InsertOne (e : env) (doc : bson.M) : serves (mongo.InsertOne e doc).
Proof.
  intros w. unfold mongo.InsertOne. cbn [collection record].
  destruct (store_err e); [|destruct (existsb _ _)]; eexists _, _, [_];
    (split; [reflexivity|]); by repeat constructor.
Qed.

Lemma serves_DeleteOne (e : env) (filter : bson.M) :
  serves (mongo.DeleteOne e filter).
Proof.
  intros w. unfold mongo.DeleteOne. cbn [collection record].
  destruct (store_err e); [|destruct (list_find _ _) as [[i d]|]];
    eexists _, _, [_]; (split; [reflexivity|]); by repeat constructor.
Qed.

Lemma serves_UpdateOne (e : env) (filter set : bson.M) :
  serves (mongo.UpdateOne e filter set).
Proof.
  intros w. unfold mongo.UpdateOne. cbn [collection record].
  destruct (store_err e); [|destruct (list_find _ _) as [[i d]|]];
    eexists _, _, [_]; (split; [reflexivity|]); by repeat constructor.
Qed.

(** Follows the structure of a handler body. *)
Ltac serves_tac :=
  repeat first
    [ apply serves_ret | apply serves_panic | apply serves_rnd_JSON
    | apply serves_Error | apply serves_deref
    | apply serves_Find | apply serves_InsertOne
    | apply serves_DeleteOne | apply serves_UpdateOne
    | apply serves_bind; [|intros]
    | match goal with
      | |- serves (if ?b then _ else _) => destruct b
      | |- serves (let '(_, _) := ?p in _) => destruct p
      | |- serves (match ?p with (_, _) => _ end) => destruct p
      end ].

Lemma serves_todoHandlers (e : env) (r : request) :
  serves (todoHandlers parse_time e r).
Proof.
  destruct r; unfold todoHandlers, fetchTodos, createTodo, updateTodo,
    deleteTodo; serves_tac.
Qed.

Lemma serve_all_run (reqs : list (env * request)) (w : world) :
  exists (c : list bson.M) (l : list event),
    serve_all parse_time reqs w = (Return tt, mk_world c (client w) (trace w ++ l))
    /\ Forall (fun ev => serving_event ev = true) l.
Proof.
  revert w. induction reqs as [|[e r] reqs IH]; intros w; cbn [serve_all].
  - exists (collection w), []. rewrite app_nil_r. by destruct w.
  - rewrite bind_run. unfold serve at 1. cbn [fst snd].
    destruct (serves_todoHandlers e r w) as (o & c & l & -> & Hl & Ho).
    destruct (IH (mk_world c (client w) (trace w ++ l))) as (c' & l' & E & Hl').
    cbn [client trace] in E. rewrite <- app_assoc in E.
    destruct o as [[]|msg|msg]; [| |by destruct (Ho msg)];
      rewrite E; exists c', (l ++ l')%list; (split; [done|]);
      by apply Forall_app.
Qed.

(** An event that differs from every element of a literal list. *)
Ltac not_in_literal :=
  let Hin := fresh "Hin" in
  intros Hin;
  repeat (apply elem_of_cons in Hin as [Hin | Hin]; [discriminate Hin|]);
  by apply elem_of_nil in Hin.

(** A run in which the store was reached at startup. *)
Lemma program_run (reqs : list (env * request)) (w : world) :
  exists (c : list bson.M) (l : list event),
    program parse_time (mk_startup None None) reqs w
    = (Return tt,
       mk_world c true
         (trace w ++
          ([ E_Connect hostName; E_Ping;
             E_Println "Successfully connected to MongoDB";
             E_Notify; E_go_ListenAndServe port ] ++ l) ++
          [ E_Interrupt;
            E_Println "shutting down server...";
            E_Disconnect;
            E_Println "Closed MongoDB connection";
            E_Shutdown (5 * Second);
            E_Println "server gracefully stopped" ]))
    /\ Forall (fun ev => serving_event ev = true) l.
Proof.
  unfold program, init, main, set_client, get_client, emit.
  cbn [connect_err ping_err negb is_nil]. step_go.
  match goal with
  | |- context [serve_all parse_time reqs ?w0] =>
      destruct (serve_all_run reqs w0) as (c & l & E & Hl); rewrite E
  end.
  exists c, l. split; [|exact Hl].
  repeat progress (step_go; cbn beta iota;
                   cbn [record collection client trace]).
  unfold record. cbn [collection client trace].
  rewrite <- !app_assoc. cbn [app]. reflexivity.
Qed.

(** C9.  In every run of the process in which the interrupt is received,
    what follows it is, in this order: the store connection is closed,
    then the HTTP server is shut down with a grace period of five seconds.
    Neither call occurs earlier in the run, so the shutdown of the server
    never precedes the disconnect. *)
Theorem C9_store_closed_before_server (s : startup)
    (reqs : list (env * request)) (w : world) :
  let tr := effects (program parse_time s reqs) w in
  E_Interrupt ∈ tr ->
  exists before : list event,
    tr = (before ++
          [ E_Interrupt;
            E_Println "shutting down server...";
            E_Disconnect;
            E_Println "Closed MongoDB connection";
            E_Shutdown (5 * Second);
            E_Println "server gracefully stopped" ])%list
    /\ (E_Disconnect ∉ before)
    /\ (forall t, E_Shutdown t ∉ before)
    /\ (5 * Second = 5000000000)%Z.
Proof.
  intros tr. subst tr.
  destruct s as [[cerr|] [perr|]].
  1-3: unfold program, init; cbn [connect_err ping_err negb is_nil];
       erewrite effects_trace;
         [|unfold set_client, Fatalf, emit; by_trace];
       intros Hin; exfalso; revert Hin; not_in_literal.
  intros _. destruct (program_run reqs w) as (c & l & E & Hl).
  eexists. split; [apply effects_trace; rewrite E; reflexivity|].
  split; [|split; [|reflexivity]]; [|intros t];
    (rewrite not_elem_of_app; split; [not_in_literal|]);
    intros Hin; rewrite Forall_forall in Hl; by specialize (Hl _ Hin).
Qed.

End Properties.

(* ===================================================================== *)
(** ** The claims at concrete requests                                    *)
(* ===================================================================== *)

(** C1 (as stated) fails: on the collection holding the single record
    created by [POST {"title":"buy milk"}], the request
    [PUT /todo/{id} {"title":"buy milk","completed":true}] with the id of
    that record is answered 400 "invalid request", not 200. *)
Lemma C1_boolean_body_is_rejected :
  IsValidObjectID (Hex sample.oid) = true
  /\ length (List.filter (mongo.has_id (bson.ObjectID_ sample.oid))
               (collection sample.one_todo)) = 1
  /\ sample.buy_milk_done_bool
     = json.Document (json.Object [("title", json.String_ "buy milk");
                                   ("completed", json.Bool true)])
  /\ responses (updateTodo sample.no_time sample.quiet (Hex sample.oid)
                  sample.buy_milk_done_bool) sample.one_todo
     = [(StatusBadRequest,
         {[ "message" := Str "invalid request";
            "error" := Str "json: cannot unmarshal bool into Go struct field todo.completed of type string" ]})]
  /\ store_after (updateTodo sample.no_time sample.quiet (Hex sample.oid)
                    sample.buy_milk_done_bool) sample.one_todo
     = collection sample.one_todo.
Proof. repeat (split; [vm_compute; reflexivity|]). vm_compute; reflexivity. Qed.

(** The amended C1 at the text body [{"title":"buy milk","completed":"true"}]. *)
Lemma C1_witness :
  ObjectIDFromHex (Hex sample.oid) = Some sample.oid
  /\ existsb (mongo.has_id (bson.ObjectID_ sample.oid))
       (collection sample.one_todo) = true
  /\ responses (updateTodo sample.no_time sample.quiet (Hex sample.oid)
                  sample.buy_milk_done_text) sample.one_todo
     = [(StatusOK, {[ "message" := Str "todo updated successfully" ]})].
Proof.
  split; [reflexivity|]. split; [reflexivity|].
  exact (proj1 (proj2
    (C1_update_of_existing_record sample.no_time sample.quiet (Hex sample.oid)
       sample.oid sample.buy_milk_done_text sample.one_todo
       eq_refl eq_refl))).
Defined.

(** C2 fails on the code: on the empty collection, [DELETE /todo/{id}] and
    [PUT /todo/{id}] with a well-formed id find no record; the store call
    returns a nil error and a zero count, and the handler panics in
    [err.Error()] without writing a response. *)
Theorem C2_absent_id_panics :
  let id := Hex sample.other in
  IsValidObjectID id = true
  /\ collection initial = []
  /\ store_err sample.quiet = None
  /\ fst (deleteTodo sample.quiet id initial) = Panic nil_dereference
  /\ responses (deleteTodo sample.quiet id) initial = []
  /\ fst (updateTodo sample.no_time sample.quiet id sample.buy_milk_done_text
            initial) = Panic nil_dereference
  /\ responses (updateTodo sample.no_time sample.quiet id
                  sample.buy_milk_done_text) initial = [].
Proof.
  intros id.
  pose proof (absent_id_panics sample.no_time sample.quiet id sample.other
                sample.buy_milk_done_text initial (DELETE id)
                (ObjectIDFromHex_Hex _) eq_refl eq_refl (or_introl eq_refl))
    as (D1 & D2 & _).
  pose proof (absent_id_panics sample.no_time sample.quiet id sample.other
                sample.buy_milk_done_text initial
                (PUT id sample.buy_milk_done_text)
                (ObjectIDFromHex_Hex _) eq_refl eq_refl
                (or_intror (conj eq_refl eq_refl)))
    as (U1 & U2 & _).
  split; [apply IsValidObjectID_Hex|]. by repeat split.
Qed.

(** C3 fails on the code: [PUT /todo/{id} {"title":"buy milk",
    "completed":"true"}] on the record created by [POST {"title":"buy
    milk"}] is answered 200 and leaves the string "true", not a boolean,
    under [completed]; the list operation that follows cannot decode the
    record and answers 400. *)
Theorem C3_update_stores_text_under_completed :
  let run := updateTodo sample.no_time sample.quiet (Hex sample.oid)
               sample.buy_milk_done_text in
  collection sample.one_todo
  = [ {[ "_id" := bson.ObjectID_ sample.oid;
         "title" := bson.String_ "buy milk";
         "completed" := bson.Boolean false;
         "createAt" := bson.DateTime 1700000000123 ]} ]
  /\ responses run sample.one_todo
     = [(StatusOK, {[ "message" := Str "todo updated successfully" ]})]
  /\ store_after run sample.one_todo
     = [ {[ "_id" := bson.ObjectID_ sample.oid;
            "title" := bson.String_ "buy milk";
            "completed" := bson.String_ "true";
            "createAt" := bson.DateTime 1700000000123 ]} ]
  /\ responses (fetchTodos sample.quiet) (snd (run sample.one_todo))
     = [(StatusBadRequest,
         {[ "message" := Str "could not decode todos";
            "error" := Str "error decoding key completed: cannot decode string into a boolean type" ]})].
Proof.
  intros run. subst run.
  repeat (split; [vm_compute; reflexivity|]). vm_compute; reflexivity.
Qed.

(** C4 at [POST {"title":"buy milk"}] on the empty collection. *)
Lemma C4_witness :
  json.Decode sample.no_time sample.buy_milk zero_todo
  = ({| ID := ""; Title := "buy milk"; Completed := ""; CreatedAt := zero_Time |},
     None)
  /\ exists doc : bson.M,
       store_after (createTodo sample.no_time sample.quiet sample.buy_milk) initial
       = [doc]
       /\ doc !! "completed" = Some (bson.Boolean false)
       /\ doc !! "_id" = Some (bson.ObjectID_ sample.oid).
Proof.
  split; [reflexivity|].
  destruct (C4_create_inserts_fresh_uncompleted sample.no_time sample.show_time
              sample.quiet sample.buy_milk initial _ eq_refl ltac:(discriminate))
    as (_ & doc & Hs & Hc & Hi & _).
  exists doc. split; [exact Hs|]. split; [exact Hc | exact Hi].
Defined.

(** C5 at [POST {}]. *)
Lemma C5_witness :
  Title (fst (json.Decode sample.no_time sample.no_title zero_todo)) = ""
  /\ exists v : renderer.M,
       responses (createTodo sample.no_time sample.quiet sample.no_title) initial
       = [(StatusBadRequest, v)]
       /\ store_after (createTodo sample.no_time sample.quiet sample.no_title)
            initial = [].
Proof.
  split; [reflexivity|].
  destruct (C5_invalid_create_inserts_nothing sample.no_time sample.quiet
              sample.no_title initial (or_intror eq_refl))
    as (v & _ & _ & Hr & _ & Hs).
  exists v. split; [exact Hr | exact Hs].
Defined.

(** C6 at [DELETE /todo/not-an-object-id]. *)
Lemma C6_witness :
  IsValidObjectID "not-an-object-id" = false
  /\ exists v : renderer.M,
       responses (todoHandlers sample.no_time sample.quiet
                    (DELETE "not-an-object-id")) sample.one_todo
       = [(StatusBadRequest, v)]
       /\ store_calls (todoHandlers sample.no_time sample.quiet
                         (DELETE "not-an-object-id")) sample.one_todo = [].
Proof.
  split; [reflexivity|].
  destruct (C6_malformed_id_fails_fast sample.no_time sample.quiet
              "not-an-object-id" sample.buy_milk sample.one_todo
              (DELETE "not-an-object-id") eq_refl (or_intror eq_refl))
    as (v & _ & _ & Hr & Hc & _).
  exists v. split; [exact Hr | exact Hc].
Defined.

(** C7 at the update of the one stored record. *)
Lemma C7_witness :
  responses (updateTodo sample.no_time sample.quiet (Hex sample.oid)
               sample.buy_milk_done_text) sample.one_todo
  = [(StatusOK, {[ "message" := Str "todo updated successfully" ]})]
  /\ exists (i : nat) (d d' : bson.M),
       collection sample.one_todo !! i = Some d
       /\ store_after (updateTodo sample.no_time sample.quiet (Hex sample.oid)
                         sample.buy_milk_done_text) sample.one_todo
          = <[i := d']> (collection sample.one_todo)
       /\ d' !! "_id" = d !! "_id"
       /\ d' !! "createAt" = d !! "createAt".
Proof.
  assert (R : responses (updateTodo sample.no_time sample.quiet (Hex sample.oid)
                           sample.buy_milk_done_text) sample.one_todo
              = [(StatusOK, {[ "message" := Str "todo updated successfully" ]})])
    by (vm_compute; reflexivity).
  split; [exact R|].
  destruct (C7_update_frame sample.no_time sample.quiet (Hex sample.oid)
              sample.buy_milk_done_text sample.one_todo _ R)
    as (oid & i & d & d' & _ & Hd & _ & Hs & _ & _ & _ & Hi & Hc & _).
  exists i, d, d'. split; [exact Hd|]. split; [exact Hs|].
  split; [exact Hi | exact Hc].
Defined.

(** C8 at the collection holding one record. *)
Lemma C8_witness :
  responses (fetchTodos sample.quiet) sample.one_todo
  = [(StatusOK,
      {[ "data" := Todos [ {| ID := "654f1a2b3c4d5e6f708192a3";
                              Title := "buy milk";
                              Completed := "false";
                              CreatedAt := 1700000000123000000%Z |} ] ]})]
  /\ exists views : list todo,
       Forall2 (fun (d : bson.M) (view : todo) =>
                  Completed view = "true" \/ Completed view = "false")
         (collection sample.one_todo) views.
Proof.
  assert (R : responses (fetchTodos sample.quiet) sample.one_todo
              = [(StatusOK,
                  {[ "data" := Todos [ {| ID := "654f1a2b3c4d5e6f708192a3";
                                          Title := "buy milk";
                                          Completed := "false";
                                          CreatedAt := 1700000000123000000%Z |} ] ]})])
    by (vm_compute; reflexivity).
  split; [exact R|].
  destruct (C8_list_renders_views sample.show_time sample.quiet sample.one_todo
              _ R) as (views & _ & _ & H).
  exists views. eapply Forall2_impl; [exact H|]. intros d view Hv. exact (proj1 Hv).
Defined.

(** C9 at a run that serves one POST before the interrupt. *)
Lemma C9_witness :
  let tr := effects (program sample.no_time (mk_startup None None)
                       [(sample.quiet, POST sample.buy_milk)]) initial in
  E_Interrupt ∈ tr
  /\ exists before : list event,
       tr = (before ++
             [ E_Interrupt;
               E_Println "shutting down server...";
               E_Disconnect;
               E_Println "Closed MongoDB connection";
               E_Shutdown (5 * Second);
               E_Println "server gracefully stopped" ])%list
       /\ (E_Disconnect ∉ before).
Proof.
  intros tr.
  assert (Hin : E_Interrupt ∈ tr).
  { subst tr. vm_compute. do 7 apply list_elem_of_further. apply list_elem_of_here. }
  split; [exact Hin|].
  destruct (C9_store_closed_before_server sample.no_time (mk_startup None None)
              [(sample.quiet, POST sample.buy_milk)] initial Hin)
    as (before & Htr & Hd & _).
  exists before. split; [exact Htr | exact Hd].
Defined.

(** C10 (as stated) fails in its last clause: the body
    [{"title":"x","completed":null}] has a [completed] member that is not a
    string, and it decodes: the record is created and the answer is 201. *)
Lemma C10_null_completed_parses :
  sample.x_null
  = json.Document (json.Object [("title", json.String_ "x");
                                ("completed", json.Null)])
  /\ snd (json.Decode sample.no_time sample.x_null zero_todo) = None
  /\ responses (createTodo sample.no_time sample.quiet sample.x_null) initial
     = [(StatusCreated,
         {[ "message" := Str "todo created successfully";
            "todo_id" := Any (bson.ObjectID_ sample.oid) ]})]
  /\ length (store_after (createTodo sample.no_time sample.quiet sample.x_null)
               initial) = 1.
Proof. repeat (split; [vm_compute; reflexivity|]). vm_compute; reflexivity. Qed.

(** The amended C10 at [POST {"title":"x","completed":true}]. *)
Lemma C10_witness :
  (exists k b, (k, json.Bool b) ∈ [("title", json.String_ "x");
                                   ("completed", json.Bool true)]
               /\ json.field_of_key k = Some json.F_completed)
  /\ store_calls (createTodo sample.no_time sample.quiet sample.x_done_bool)
       initial = []
  /\ store_after (createTodo sample.no_time sample.quiet sample.x_done_bool)
       initial = [].
Proof.
  assert (H : exists k b, (k, json.Bool b) ∈ [("title", json.String_ "x");
                                              ("completed", json.Bool true)]
                          /\ json.field_of_key k = Some json.F_completed).
  { exists "completed", true. split; [|reflexivity].
    apply list_elem_of_further, list_elem_of_here. }
  split; [exact H|].
  destruct (C10_boolean_completed_is_a_parse_failure sample.no_time sample.quiet
              _ initial H) as (_ & Hc & Hs & _).
  split; [exact Hc | exact Hs].
Defined.

(* ===================================================================== *)
(** ** Further properties of the handlers                                 *)
(* ===================================================================== *)

Section Further.

Variable parse_time : string -> error + Time.

(** *** Runs *)

Lemma assigned_id_Marshal (e : env) (tm : todoModel) :
  m_ID tm = NewObjectID e ->
  default (bson.ObjectID_ (driver_ObjectID e)) (codec.Marshal tm !! "_id")
  = bson.ObjectID_ (assigned_id e).
Proof.
  intros H. unfold codec.Marshal, assigned_id. rewrite H.
  destruct (IsZero (NewObjectID e)); by simplify_map_eq.
Qed.

(** The five ways [createTodo] ends. *)
Lemma createTodo_run (e : env) (body : json.body) (w : world) (t : todo)
    (err : option error) :
  json.Decode parse_time body zero_todo = (t, err) ->
  let doc := codec.Marshal {| m_ID := NewObjectID e; m_Title := Title t;
                              m_Completed := false; m_CreatedAt := Now e |} in
  let called := record (E_InsertOne doc) w in
  createTodo parse_time e body w =
  match err with
  | Some msg =>
      (Return tt,
       record (E_JSON StatusBadRequest
                 {[ "message" := Str "invalid request"; "error" := Str msg ]}) w)
  | None =>
      if String.eqb (Title t) "" then
        (Return tt,
         record (E_JSON StatusBadRequest
                   {[ "message" := Str "title is required";
                      "error" := Str "bad request" ]}) w)
      else
        match store_err e with
        | Some msg =>
            (Return tt,
             record (E_JSON StatusBadRequest
                       {[ "message" := Str "could not create todo";
                          "error" := Str msg ]}) called)
        | None =>
            if existsb (mongo.has_id (bson.ObjectID_ (assigned_id e))) (collection w)
            then
              (Return tt,
               record (E_JSON StatusBadRequest
                         {[ "message" := Str "could not create todo";
                            "error" := Str mongo.duplicate_key ]}) called)
            else
              (Return tt,
               record (E_JSON StatusCreated
                         {[ "message" := Str "todo created successfully";
                            "todo_id" := Any (bson.ObjectID_ (assigned_id e)) ]})
                 (mongo.with_collection
                    (collection w ++ [created_doc e (Title t)])%list called))
        end
  end.
Proof.
  intros D doc called. unfold createTodo. rewrite D.
  destruct err as [msg|]; [reflexivity|]. cbn [negb is_nil].
  destruct (String.eqb (Title t) ""); [reflexivity|].
  rewrite bind_run. unfold mongo.InsertOne.
  rewrite assigned_id_Marshal by reflexivity.
  cbn [collection record]. fold doc called.
  destruct (store_err e) as [msg|]; [reflexivity|].
  destruct (existsb _ _); reflexivity.
Qed.

(** What one request does to the collection: nothing, or the one change its
    success response reports. *)
Lemma todoHandlers_store (e : env) (r : request) (w : world) :
  let run := todoHandlers parse_time e r in
  store_after run w = collection w
  \/ (exists body t,
        r = POST body
        /\ json.Decode parse_time body zero_todo = (t, None)
        /\ Title t <> ""
        /\ existsb (mongo.has_id (bson.ObjectID_ (assigned_id e))) (collection w)
           = false
        /\ store_after run w = (collection w ++ [created_doc e (Title t)])%list
        /\ responses run w
           = [(StatusCreated,
               {[ "message" := Str "todo created successfully";
                  "todo_id" := Any (bson.ObjectID_ (assigned_id e)) ]})])
  \/ (exists id body oid i d,
        r = PUT id body
        /\ ObjectIDFromHex id = Some oid
        /\ list_find (fun d => mongo.matches {[ "_id" := bson.ObjectID_ oid ]} d = true)
             (collection w) = Some (i, d)
        /\ store_after run w
           = <[i := set_of (fst (json.Decode parse_time body zero_todo)) ∪ d]>
               (collection w)
        /\ responses run w
           = [(StatusOK, {[ "message" := Str "todo updated successfully" ]})])
  \/ (exists id oid i d,
        r = DELETE id
        /\ ObjectIDFromHex id = Some oid
        /\ list_find (fun d => mongo.matches {[ "_id" := bson.ObjectID_ oid ]} d = true)
             (collection w) = Some (i, d)
        /\ store_after run w = delete i (collection w)
        /\ responses run w
           = [(StatusOK, {[ "message" := Str "todo deleted successfully" ]})]).
Proof.
  intros run. subst run. destruct r as [|body|id body|id]; unfold todoHandlers.
  - left. pose proof (fetchTodos_run e w) as E. cbn zeta in E.
    destruct (store_err e) as [msg|];
      [|destruct (codec.All (collection w)) as [todos [msg|]]];
      destruct (observe _ _ _ _ _ E ltac:(by_trace)) as (_ & Es & _);
      exact Es.
  - destruct (json.Decode parse_time body zero_todo) as [t err] eqn:D.
    pose proof (createTodo_run e body w t err D) as E. cbn zeta in E.
    destruct err as [msg|]; [|destruct (String.eqb_spec (Title t) "") as [T|T]];
      [| |destruct (store_err e) as [msg|];
          [|destruct (existsb _ _) eqn:X]];
      destruct (observe _ _ _ _ _ E ltac:(by_trace)) as (Ef & Es & _);
      [left; exact Es..|].
    right; left. exists body, t. unfold responses. rewrite Ef.
    split_and!; first [assumption | exact Es | reflexivity].
  - destruct (ObjectIDFromHex id) as [oid|] eqn:Hid.
    2:{ left. assert (V : IsValidObjectID id = false)
          by (unfold IsValidObjectID; by rewrite Hid).
        pose proof (malformed_id_run parse_time e id body w _ V (or_introl eq_refl)) as E.
        unfold todoHandlers in E.
        destruct (only_renders _ _ _ _ _ E) as (_ & _ & Es). exact Es. }
    destruct (json.Decode parse_time body zero_todo) as [t err] eqn:D.
    pose proof (updateTodo_run parse_time e id oid body w t err Hid D) as E.
    cbn zeta in E.
    destruct err as [msg|]; [|destruct (store_err e) as [msg|]];
      [| |destruct (list_find _ _) as [[i d]|] eqn:F];
      destruct (observe _ _ _ _ _ E ltac:(by_trace)) as (Ef & Es & _);
      [left; exact Es | left; exact Es | | left; exact Es].
    right; right; left. exists id, body, oid, i, d.
    unfold responses. rewrite Ef, ?D. cbn [fst].
    split_and!; first [assumption | exact Es | reflexivity].
  - destruct (ObjectIDFromHex id) as [oid|] eqn:Hid.
    2:{ left. assert (V : IsValidObjectID id = false)
          by (unfold IsValidObjectID; by rewrite Hid).
        pose proof (malformed_id_run parse_time e id sample.buy_milk w _ V
                      (or_intror eq_refl)) as E.
        unfold todoHandlers in E.
        destruct (only_renders _ _ _ _ _ E) as (_ & _ & Es). exact Es. }
    pose proof (deleteTodo_run e id oid w Hid) as E. cbn zeta in E.
    destruct (store_err e) as [msg|];
      [|destruct (list_find _ _) as [[i d]|] eqn:F];
      destruct (observe _ _ _ _ _ E ltac:(by_trace)) as (Ef & Es & _);
      [left; exact Es | | left; exact Es].
    right; right; right. exists id, oid, i, d.
    unfold responses. rewrite Ef.
    split_and!; first [assumption | exact Es | reflexivity].
Qed.

(** *** One request after another *)

Lemma todoHandlers_trace (e : env) (r : request) (w : world) :
  trace (snd (todoHandlers parse_time e r w))
  = (trace w ++ effects (todoHandlers parse_time e r) w)%list.
Proof.
  destruct (serves_todoHandlers parse_time e r w) as (o & c & l & E & _).
  unfold effects. rewrite E. cbn [snd trace]. by rewrite drop_app_length.
Qed.

Lemma serve_all_cons (e : env) (r : request) (reqs : list (env * request))
    (w : world) :
  serve_all parse_time ((e, r) :: reqs) w
  = serve_all parse_time reqs (snd (todoHandlers parse_time e r w)).
Proof.
  cbn [serve_all]. rewrite bind_run. unfold serve. cbn [fst snd].
  destruct (serves_todoHandlers parse_time e r w) as (o & c & l & -> & _ & Ho).
  destruct o as [[]|msg|msg]; [reflexivity | reflexivity | by destruct (Ho msg)].
Qed.

Lemma serve_all_trace (reqs : list (env * request)) (w : world) :
  trace (snd (serve_all parse_time reqs w))
  = (trace w ++ effects (serve_all parse_time reqs) w)%list.
Proof.
  destruct (serve_all_run parse_time reqs w) as (c & l & E & _).
  unfold effects. rewrite E. cbn [snd trace]. by rewrite drop_app_length.
Qed.

Lemma effects_serve_cons (e : env) (r : request) (reqs : list (env * request))
    (w : world) :
  effects (serve_all parse_time ((e, r) :: reqs)) w
  = (effects (todoHandlers parse_time e r) w
     ++ effects (serve_all parse_time reqs) (snd (todoHandlers parse_time e r w)))%list.
Proof.
  unfold effects at 1. rewrite serve_all_cons, serve_all_trace, todoHandlers_trace.
  rewrite <- app_assoc. apply drop_app_length.
Qed.

Lemma responses_serve_cons (e : env) (r : request) (reqs : list (env * request))
    (w : world) :
  responses (serve_all parse_time ((e, r) :: reqs)) w
  = (responses (todoHandlers parse_time e r) w
     ++ responses (serve_all parse_time reqs)
          (snd (todoHandlers parse_time e r w)))%list.
Proof. unfold responses. rewrite effects_serve_cons. apply omap_app. Qed.

Lemma store_after_serve_cons (e : env) (r : request)
    (reqs : list (env * request)) (w : world) :
  store_after (serve_all parse_time ((e, r) :: reqs)) w
  = store_after (serve_all parse_time reqs) (snd (todoHandlers parse_time e r w)).
Proof. unfold store_after. by rewrite serve_all_cons. Qed.

Lemma responses_serve_nil (w : world) : responses (serve_all parse_time []) w = [].
Proof.
  unfold responses, effects. cbn [serve_all mret Go_ret snd].
  by rewrite drop_all.
Qed.

(** Two requests in a row. *)
Lemma serve_two (e1 e2 : env) (r1 r2 : request) (w : world) :
  let w1 := snd (todoHandlers parse_time e1 r1 w) in
  responses (serve_all parse_time [(e1, r1); (e2, r2)]) w
  = (responses (todoHandlers parse_time e1 r1) w
     ++ responses (todoHandlers parse_time e2 r2) w1)%list
  /\ store_after (serve_all parse_time [(e1, r1); (e2, r2)]) w
     = store_after (todoHandlers parse_time e2 r2) w1.
Proof.
  intros w1. rewrite !responses_serve_cons, responses_serve_nil, app_nil_r.
  rewrite !store_after_serve_cons. by split.
Qed.

(** *** Deleting *)

Lemma has_id_iff (v : bson.value) (d : bson.M) :
  mongo.matches {[ "_id" := v ]} d = true <-> d !! "_id" = Some v.
Proof.
  rewrite matches_id. unfold mongo.has_id. apply bool_decide_eq_true.
Qed.

(** What a DELETE answered 200 tells. *)
Lemma deleteTodo_OK (e : env) (id : string) (w : world) (v : renderer.M) :
  responses (deleteTodo e id) w = [(StatusOK, v)] ->
  exists (oid : ObjectID) (i : nat) (d : bson.M),
    ObjectIDFromHex id = Some oid
    /\ store_err e = None
    /\ list_find (fun d => mongo.matches {[ "_id" := bson.ObjectID_ oid ]} d = true)
         (collection w) = Some (i, d)
    /\ store_after (deleteTodo e id) w = delete i (collection w)
    /\ v = {[ "message" := Str "todo deleted successfully" ]}.
Proof.
  intros R.
  destruct (ObjectIDFromHex id) as [oid|] eqn:Hid.
  2:{ exfalso. assert (V : IsValidObjectID id = false)
        by (unfold IsValidObjectID; by rewrite Hid).
      pose proof (malformed_id_run parse_time e id sample.buy_milk w _ V
                    (or_intror eq_refl)) as E.
      unfold todoHandlers in E.
      destruct (only_renders _ _ _ _ _ E) as (R' & _).
      rewrite R' in R. discriminate R. }
  pose proof (deleteTodo_run e id oid w Hid) as E. cbn zeta in E.
  destruct (store_err e) as [msg|];
    [|destruct (list_find _ _) as [[i d]|] eqn:F];
    destruct (observe _ _ _ _ _ E ltac:(by_trace)) as (Ef & Es & _);
    unfold responses in R; rewrite Ef in R; try discriminate R.
  exists oid, i, d. rewrite Es.
  split_and!; try first [assumption | reflexivity].
  apply (f_equal (fun l : list (Z * renderer.M) =>
                    match l with
                    | [(_, m)] => Some m
                    | _ => None
                    end)) in R.
  cbn beta iota in R. by injection R as <-.
Qed.

(** A DELETE answered 200 removed exactly one record: the first one whose
    [_id] is the path id.  The records before and after it stay, in order. *)
Theorem delete_removes_first_match (e : env) (id : string) (w : world)
    (v : renderer.M) :
  responses (deleteTodo e id) w = [(StatusOK, v)] ->
  exists (oid : ObjectID) (i : nat) (d : bson.M),
    ObjectIDFromHex id = Some oid
    /\ collection w !! i = Some d
    /\ d !! "_id" = Some (bson.ObjectID_ oid)
    /\ (forall j d', j < i -> collection w !! j = Some d' ->
          d' !! "_id" <> Some (bson.ObjectID_ oid))
    /\ store_after (deleteTodo e id) w
       = (take i (collection w) ++ drop (S i) (collection w))%list
    /\ S (length (store_after (deleteTodo e id) w)) = length (collection w)
    /\ v = {[ "message" := Str "todo deleted successfully" ]}.
Proof.
  intros R.
  destruct (deleteTodo_OK e id w v R) as (oid & i & d & Hid & _ & F & Hs & Hv).
  apply list_find_Some in F as (Hi & Hm & Hlt).
  exists oid, i, d. rewrite Hs.
  split; [exact Hid|]. split; [exact Hi|].
  split; [by apply has_id_iff|].
  split; [intros j d' Hj Hd' Hm'; apply (Hlt j d' Hd' Hj); by apply has_id_iff|].
  split; [apply delete_take_drop|].
  split; [rewrite length_delete by (by eexists);
          apply lookup_lt_Some in Hi; lia | exact Hv].
Qed.


(** *** Writing a record and reading it back *)

Lemma Marshal_lookups (tm : todoModel) :
  codec.Marshal tm !! "_id"
  = (if IsZero (m_ID tm) then None else Some (bson.ObjectID_ (m_ID tm)))
  /\ codec.Marshal tm !! "title" = Some (bson.String_ (m_Title tm))
  /\ codec.Marshal tm !! "completed" = Some (bson.Boolean (m_Completed tm))
  /\ codec.Marshal tm !! "createAt"
     = Some (bson.DateTime (bson.NewDateTimeFromTime (m_CreatedAt tm))).
Proof.
  unfold codec.Marshal. destruct (IsZero (m_ID tm)); by simplify_map_eq.
Qed.

(** A [todoModel] written through its bson tags reads back with the same
    id, title and flag (a zero id is dropped on the way out and restored as
    the zero value on the way in), and with its creation time cut to the
    millisecond. *)
Theorem Marshal_Unmarshal_round_trip (tm : todoModel) :
  let stored := bson.DateTime_Time (bson.NewDateTimeFromTime (m_CreatedAt tm)) in
  codec.Unmarshal (codec.Marshal tm)
  = inr {| m_ID := m_ID tm; m_Title := m_Title tm;
           m_Completed := m_Completed tm; m_CreatedAt := stored |}
  /\ (stored <= m_CreatedAt tm < stored + 1000000)%Z.
Proof.
  intros stored. split.
  - destruct (Marshal_lookups tm) as (Hi & Ht & Hc & Hd).
    unfold codec.Unmarshal. rewrite Hi, Ht, Hc, Hd.
    unfold IsZero. case_bool_decide as Hz; [rewrite Hz|]; reflexivity.
  - subst stored. unfold bson.DateTime_Time, bson.NewDateTimeFromTime.
    pose proof (Z.div_mod (m_CreatedAt tm) 1000000 ltac:(lia)).
    pose proof (Z.mod_pos_bound (m_CreatedAt tm) 1000000 ltac:(lia)). lia.
Qed.

Lemma created_doc_lookups (e : env) (title : string) :
  created_doc e title !! "_id" = Some (bson.ObjectID_ (assigned_id e))
  /\ created_doc e title !! "title" = Some (bson.String_ title)
  /\ created_doc e title !! "completed" = Some (bson.Boolean false)
  /\ created_doc e title !! "createAt"
     = Some (bson.DateTime (bson.NewDateTimeFromTime (Now e))).
Proof.
  unfold created_doc.
  destruct (Marshal_lookups {| m_ID := NewObjectID e; m_Title := title;
                               m_Completed := false; m_CreatedAt := Now e |})
    as (_ & Ht & Hc & Hd). cbn [m_Title m_Completed m_CreatedAt] in *.
  rewrite lookup_insert_eq, !lookup_insert_ne by done. by rewrite Ht, Hc, Hd.
Qed.



(** A list answered 200 tells how the store and the records were. *)
Lemma fetchTodos_OK (e : env) (w : world) (views : list todo) :
  responses (fetchTodos e) w = [(StatusOK, {[ "data" := Todos views ]})] ->
  store_err e = None
  /\ exists tms, codec.All (collection w) = (tms, None)
                 /\ views = view_of <$> tms.
Proof.
  intros R. pose proof (fetchTodos_run e w) as E. cbn zeta in E.
  destruct (store_err e) as [msg|];
    [|destruct (codec.All (collection w)) as [tms [msg|]]];
    destruct (observe _ _ _ _ _ E ltac:(by_trace)) as (Ef & _);
    unfold responses in R; rewrite Ef in R; try discriminate R.
  split; [reflexivity|]. exists tms. split; [reflexivity|].
  apply (f_equal (fun l : list (Z * renderer.M) =>
                    match l with
                    | [(_, m)] => m !! "data"
                    | _ => None
                    end)) in R.
  cbn beta iota in R. rewrite !lookup_singleton_eq in R.
  injection R as <-. reflexivity.
Qed.






(** *** The string under [completed] *)

Lemma All_rejects_text (c : list bson.M) (d : bson.M) (s : string) :
  d ∈ c -> d !! "completed" = Some (bson.String_ s) ->
  exists msg, snd (codec.All c) = Some msg.
Proof.
  intros Hin Hd. induction Hin as [x c | x y c Hin IH]; cbn [codec.All].
  - destruct (codec.Unmarshal x) as [msg|tm] eqn:U; [by exists msg|].
    destruct (Unmarshal_fields x tm U) as (_ & _ & _ & _ & H).
    by destruct (H s).
  - destruct (codec.Unmarshal y) as [msg|tm]; [by exists msg|].
    destruct (IH Hd) as [msg IH'].
    destruct (codec.All c) as [tms [msg'|]]; [by exists msg' | by cbn in IH'].
Qed.

(** What an update answered 200 tells. *)
Lemma updateTodo_OK (e : env) (id : string) (body : json.body) (w : world)
    (v : renderer.M) :
  responses (updateTodo parse_time e id body) w = [(StatusOK, v)] ->
  exists (oid : ObjectID) (i : nat) (d : bson.M),
    ObjectIDFromHex id = Some oid
    /\ store_err e = None
    /\ snd (json.Decode parse_time body zero_todo) = None
    /\ list_find (fun d => mongo.matches {[ "_id" := bson.ObjectID_ oid ]} d = true)
         (collection w) = Some (i, d)
    /\ store_after (updateTodo parse_time e id body) w
       = <[i := set_of (fst (json.Decode parse_time body zero_todo)) ∪ d]>
           (collection w)
    /\ v = {[ "message" := Str "todo updated successfully" ]}.
Proof.
  intros R.
  destruct (ObjectIDFromHex id) as [oid|] eqn:Hid.
  2:{ exfalso. assert (V : IsValidObjectID id = false)
        by (unfold IsValidObjectID; by rewrite Hid).
      pose proof (malformed_id_run parse_time e id body w _ V (or_introl eq_refl))
        as E. unfold todoHandlers in E.
      destruct (only_renders _ _ _ _ _ E) as (R' & _).
      rewrite R' in R. discriminate R. }
  destruct (json.Decode parse_time body zero_todo) as [t err] eqn:D.
  pose proof (updateTodo_run parse_time e id oid body w t err Hid D) as E.
  cbn zeta in E.
  destruct err as [msg|]; [|destruct (store_err e) as [msg|]];
    [| |destruct (list_find _ _) as [[i d]|] eqn:F];
    destruct (observe _ _ _ _ _ E ltac:(by_trace)) as (Ef & Es & _);
    unfold responses in R; rewrite Ef in R; try discriminate R.
  exists oid, i, d. rewrite Es.
  split_and!; try first [assumption | reflexivity].
  apply (f_equal (fun l : list (Z * renderer.M) =>
                    match l with
                    | [(_, m)] => Some m
                    | _ => None
                    end)) in R.
  cbn beta iota in R. by injection R as <-.
Qed.

Lemma set_of_completed (t : todo) (d : bson.M) :
  (set_of t ∪ d) !! "completed" = Some (bson.String_ (Completed t))
  /\ (set_of t ∪ d) !! "title" = Some (bson.String_ (Title t))
  /\ (forall k, k <> "title" -> k <> "completed" -> (set_of t ∪ d) !! k = d !! k).
Proof.
  unfold set_of. split_and!.
  - apply lookup_union_Some_l. by simplify_map_eq.
  - apply lookup_union_Some_l. by simplify_map_eq.
  - intros k H1 H2. apply lookup_union_r. by simplify_map_eq.
Qed.

(** After any update answered 200 the next list is answered with the 400
    envelope: the updated record holds a string under [completed] and the
    list decodes every record into [todoModel]. *)
Theorem list_fails_after_update (e e' : env) (id : string) (body : json.body)
    (w : world) (v : renderer.M) :
  responses (updateTodo parse_time e id body) w = [(StatusOK, v)] ->
  exists v' : renderer.M,
    responses (serve_all parse_time [(e, PUT id body); (e', GET_)]) w
    = [(StatusOK, v); (StatusBadRequest, v')]
    /\ error_envelope v'
    /\ store_after (serve_all parse_time [(e, PUT id body); (e', GET_)]) w
       = store_after (updateTodo parse_time e id body) w.
Proof.
  intros R.
  destruct (serve_two e e' (PUT id body) GET_ w) as (-> & ->).
  cbn [todoHandlers]. rewrite R.
  set (w1 := snd (updateTodo parse_time e id body w)).
  assert (A : exists msg, snd (codec.All (collection w1)) = Some msg).
  { destruct (updateTodo_OK e id body w v R) as (oid & i & d & _ & _ & _ & F & Hs & _).
    apply list_find_Some in F as (Hi & _).
    change (collection w1) with (store_after (updateTodo parse_time e id body) w).
    rewrite Hs. eapply All_rejects_text.
    - eapply list_elem_of_lookup_2.
      apply list_lookup_insert_eq. by eapply lookup_lt_Some.
    - apply set_of_completed. }
  destruct A as [msg A].
  pose proof (fetchTodos_run e' w1) as E. cbn zeta in E.
  destruct (store_err e') as [msg'|].
  - destruct (observe _ _ _ _ _ E ltac:(by_trace)) as (Ef & Es & _).
    eexists. unfold responses at 1. rewrite Ef, Es.
    split; [reflexivity|]. split; [by eexists _, _ | reflexivity].
  - destruct (codec.All (collection w1)) as [tms [msg'|]]; [|by cbn in A].
    destruct (observe _ _ _ _ _ E ltac:(by_trace)) as (Ef & Es & _).
    eexists. unfold responses at 1. rewrite Ef, Es.
    split; [reflexivity|]. split; [by eexists _, _ | reflexivity].
Qed.

(** *** Updating *)

Lemma find_after_update (v : bson.value) (c : list bson.M) (i : nat)
    (d d' : bson.M) :
  list_find (fun d => mongo.matches {[ "_id" := v ]} d = true) c = Some (i, d) ->
  d' !! "_id" = d !! "_id" ->
  list_find (fun d => mongo.matches {[ "_id" := v ]} d = true) (<[i := d']> c)
  = Some (i, d').
Proof.
  intros F Hid. apply list_find_Some in F as (Hi & Hm & Hlt).
  apply list_find_Some.
  split; [apply list_lookup_insert_eq; by eapply lookup_lt_Some|].
  split; [apply has_id_iff; rewrite Hid; by apply has_id_iff|].
  intros j y Hj Hji. rewrite list_lookup_insert_ne in Hj by lia. by eapply Hlt.
Qed.

(** PUT is idempotent on the store: repeating an update that was answered
    200 is answered 200 again and leaves the collection as the first one
    left it. *)
Theorem update_is_idempotent (e e' : env) (id : string) (body : json.body)
    (w : world) (v : renderer.M) :
  responses (updateTodo parse_time e id body) w = [(StatusOK, v)] ->
  store_err e' = None ->
  let reqs := [(e, PUT id body); (e', PUT id body)] in
  responses (serve_all parse_time reqs) w = [(StatusOK, v); (StatusOK, v)]
  /\ store_after (serve_all parse_time reqs) w
     = store_after (updateTodo parse_time e id body) w.
Proof.
  intros R He' reqs. subst reqs.
  destruct (updateTodo_OK e id body w v R)
    as (oid & i & d & Hid & _ & D & F & Hs & ->).
  destruct (serve_two e e' (PUT id body) (PUT id body) w) as (-> & ->).
  cbn [todoHandlers]. rewrite R.
  destruct (json.Decode parse_time body zero_todo) as [t err] eqn:Dt.
  cbn [fst snd] in *. subst err.
  pose proof (updateTodo_run parse_time e' id oid body
                (snd (updateTodo parse_time e id body w)) t None Hid Dt) as E.
  cbn zeta in E. rewrite He' in E.
  change (collection (snd (updateTodo parse_time e id body w)))
    with (store_after (updateTodo parse_time e id body) w) in E.
  rewrite Hs in E. fold (set_of t) in E.
  rewrite (find_after_update _ _ i d (set_of t ∪ d) F) in E.
  2:{ apply set_of_completed; done. }
  destruct (observe _ _ _ _ _ E ltac:(by_trace)) as (Ef & Es & _).
  unfold responses at 1. rewrite Ef, Es.
  cbn [collection record mongo.with_collection].
  split; [reflexivity|].
  by rewrite list_insert_insert_eq, (assoc_L (∪)), (idemp_L (∪)).
Qed.




(** *** Ids *)

Lemma find_None_existsb (v : bson.value) (c : list bson.M) :
  list_find (fun d => mongo.matches {[ "_id" := v ]} d = true) c = None ->
  existsb (mongo.has_id v) c = false.
Proof.
  intros F. apply list_find_None in F. rewrite Forall_forall in F.
  apply not_true_iff_false. intros X. apply existsb_exists in X as (d & Hd & Hm).
  apply (F d); [by apply list_elem_of_In | by rewrite matches_id].
Qed.

Lemma ids_lookup (c : list bson.M) (i : nat) (d : bson.M) :
  c !! i = Some d -> ids c !! i = Some (d !! "_id").
Proof. intros H. unfold ids. by rewrite list_lookup_fmap, H. Qed.

(** With distinct ids, deleting removes the only record of that id. *)
Lemma delete_leaves_no_match (v : bson.value) (c : list bson.M) (i : nat)
    (d : bson.M) :
  NoDup (ids c) -> c !! i = Some d -> d !! "_id" = Some v ->
  existsb (mongo.has_id v) (delete i c) = false.
Proof.
  intros N Hi Hd. apply not_true_iff_false. intros X.
  apply existsb_exists in X as (d' & Hin & Hm).
  apply list_elem_of_In, list_elem_of_lookup in Hin as [j Hj].
  unfold mongo.has_id in Hm. apply bool_decide_eq_true in Hm.
  rewrite list_lookup_delete in Hj.
  destruct (decide (j < i)) as [Hlt|Hge].
  - assert (j = i); [|lia].
    apply (NoDup_lookup (ids c) j i (Some v) N);
      [by rewrite (ids_lookup _ _ _ Hj), Hm | by rewrite (ids_lookup _ _ _ Hi), Hd].
  - assert (S j = i); [|lia].
    apply (NoDup_lookup (ids c) (S j) i (Some v) N);
      [by rewrite (ids_lookup _ _ _ Hj), Hm | by rewrite (ids_lookup _ _ _ Hi), Hd].
Qed.

(** In a collection with distinct ids, a DELETE answered 200 leaves no
    record with the path id; the same DELETE sent again finds nothing,
    panics on the nil error and gets no response. *)
Theorem deleted_id_is_gone (e e' : env) (id : string) (w : world)
    (v : renderer.M) :
  NoDup (ids (collection w)) ->
  responses (deleteTodo e id) w = [(StatusOK, v)] ->
  store_err e' = None ->
  (exists oid,
     ObjectIDFromHex id = Some oid
     /\ Forall (fun d : bson.M => d !! "_id" <> Some (bson.ObjectID_ oid))
          (store_after (deleteTodo e id) w))
  /\ fst (deleteTodo e' id (snd (deleteTodo e id w))) = Panic nil_dereference
  /\ responses (serve_all parse_time [(e, DELETE id); (e', DELETE id)]) w
     = [(StatusOK, v)]
  /\ store_after (serve_all parse_time [(e, DELETE id); (e', DELETE id)]) w
     = store_after (deleteTodo e id) w.
Proof.
  intros N R He'.
  destruct (deleteTodo_OK e id w v R) as (oid & i & d & Hid & _ & F & Hs & _).
  apply list_find_Some in F as (Hi & Hm & _). apply has_id_iff in Hm.
  pose proof (delete_leaves_no_match _ _ _ _ N Hi Hm) as X.
  rewrite <- Hs in X.
  split.
  { exists oid. split; [exact Hid|]. apply Forall_forall. intros d' Hin Hd'.
    apply not_true_iff_false in X. apply X, existsb_exists.
    exists d'. split; [by apply list_elem_of_In|].
    unfold mongo.has_id. by apply bool_decide_eq_true. }
  pose proof (deleteTodo_run e' id oid (snd (deleteTodo e id w)) Hid) as E.
  cbn zeta in E. rewrite He' in E.
  change (collection (snd (deleteTodo e id w)))
    with (store_after (deleteTodo e id) w) in E.
  rewrite (find_id_None _ _ X) in E.
  destruct (observe _ _ _ _ _ E ltac:(by_trace)) as (Ef & Es & Er).
  split; [exact Er|].
  destruct (serve_two e e' (DELETE id) (DELETE id) w) as (-> & ->).
  cbn [todoHandlers]. rewrite R. unfold responses at 1. rewrite Ef, Es.
  split; reflexivity.
Qed.

(** The id a list shows for a record is a valid path id, and a DELETE with
    it is answered 200 and removes a record of that id, at or before the
    position listed. *)
Theorem listed_id_deletes_its_record (e e' : env) (w : world)
    (views : list todo) (i : nat) (view : todo) (d : bson.M) (o : ObjectID) :
  responses (fetchTodos e) w = [(StatusOK, {[ "data" := Todos views ]})] ->
  views !! i = Some view ->
  collection w !! i = Some d ->
  d !! "_id" = Some (bson.ObjectID_ o) ->
  store_err e' = None ->
  ID view = Hex o
  /\ IsValidObjectID (ID view) = true
  /\ responses (deleteTodo e' (ID view)) w
     = [(StatusOK, {[ "message" := Str "todo deleted successfully" ]})]
  /\ exists (j : nat) (d' : bson.M),
       j <= i
       /\ collection w !! j = Some d'
       /\ d' !! "_id" = Some (bson.ObjectID_ o)
       /\ store_after (deleteTodo e' (ID view)) w = delete j (collection w).
Proof.
  intros R Hv Hi Hd He'.
  destruct (fetchTodos_OK e w views R) as (_ & tms & A & ->).
  apply All_decodes in A.
  rewrite list_lookup_fmap in Hv.
  destruct (tms !! i) as [tm|] eqn:Htm; [|discriminate Hv].
  injection Hv as <-.
  pose proof (Forall2_lookup_lr _ _ _ _ _ _ A Hi Htm) as U.
  destruct (Unmarshal_fields d tm U) as (Ho & _).
  assert (Hview : ID (view_of tm) = Hex o) by (cbn [view_of ID]; by rewrite (Ho o Hd)).
  split; [exact Hview|]. rewrite Hview.
  split; [apply IsValidObjectID_Hex|].
  assert (X : existsb (mongo.has_id (bson.ObjectID_ o)) (collection w) = true).
  { apply existsb_exists. exists d.
    split; [by eapply list_elem_of_In, list_elem_of_lookup_2|].
    unfold mongo.has_id. by apply bool_decide_eq_true. }
  destruct (find_id_Some _ _ X) as (j & d' & F & Hj & Hd').
  pose proof (deleteTodo_run e' (Hex o) o w (ObjectIDFromHex_Hex o)) as E.
  cbn zeta in E. rewrite He', F in E.
  destruct (observe _ _ _ _ _ E ltac:(by_trace)) as (Ef & Es & _).
  unfold responses. rewrite Ef, Es.
  split; [reflexivity|]. exists j, d'.
  split; [|by split_and!].
  apply list_find_Some in F as (_ & _ & Hlt).
  destruct (decide (j <= i)) as [|Hn]; [done|].
  exfalso. apply (Hlt i d Hi); [lia | by apply has_id_iff].
Qed.

(** *** The invariant of the collection *)

Lemma service_doc_created (e : env) (title : string) :
  service_doc (created_doc e title).
Proof.
  destruct (created_doc_lookups e title) as (Hi & Ht & Hc & Hd).
  unfold service_doc. split_and!; [by eexists..|]. left. by eexists.
Qed.

Lemma service_doc_set (t : todo) (d : bson.M) :
  service_doc d -> service_doc (set_of t ∪ d).
Proof.
  intros ((o & Ho) & _ & (ms & Hms) & _).
  destruct (set_of_completed t d) as (Hc & Ht & Hk).
  unfold service_doc. rewrite Hc, Ht, !Hk by done.
  split_and!; [by eexists..|]. right. by eexists.
Qed.

Lemma consistent_step (e : env) (r : request) (w : world) :
  consistent (collection w) ->
  consistent (store_after (todoHandlers parse_time e r) w).
Proof.
  intros [HF HN].
  destruct (todoHandlers_store e r w)
    as [-> | [(body & t & _ & _ & _ & X & -> & _)
           | [(id & body & oid & i & d & _ & _ & F & -> & _)
             | (id & oid & i & d & _ & _ & F & -> & _)]]].
  - by split.
  - split.
    + apply Forall_app. split; [exact HF|].
      constructor; [apply service_doc_created | constructor].
    + unfold ids. rewrite fmap_app. apply NoDup_app.
      split; [exact HN|]. split; [|apply NoDup_singleton].
      intros x Hx Hx'. apply list_elem_of_singleton in Hx'. subst x.
      apply list_elem_of_fmap in Hx as (d & Hd & Hin).
      apply not_true_iff_false in X. apply X, existsb_exists.
      exists d. split; [by apply list_elem_of_In|].
      unfold mongo.has_id. apply bool_decide_eq_true.
      cbn [fmap list_fmap] in Hd.
      destruct (created_doc_lookups e (Title t)) as (Hi & _).
      by rewrite <- Hd, Hi.
  - apply list_find_Some in F as (Hi & _).
    destruct (set_of_completed (fst (json.Decode parse_time body zero_todo)) d)
      as (_ & _ & Hk).
    split.
    + apply Forall_insert; [exact HF|]. apply service_doc_set.
      rewrite Forall_forall in HF. by eapply HF, list_elem_of_lookup_2.
    + unfold ids. rewrite list_fmap_insert. cbn beta.
      rewrite Hk by done. rewrite list_insert_id; [exact HN|].
      by apply ids_lookup.
  - split.
    + by apply Forall_delete.
    + unfold ids. rewrite list_fmap_delete.
      eapply sublist_NoDup; [exact HN | apply sublist_delete].
Qed.

(** Serving requests keeps the collection in the shape the handlers write:
    every record has an ObjectID, a string title, a creation time and a
    boolean or a string under [completed], and no two records share an
    id. *)
Theorem serving_keeps_collection_consistent (reqs : list (env * request))
    (w : world) :
  consistent (collection w) ->
  consistent (store_after (serve_all parse_time reqs) w).
Proof.
  revert w. induction reqs as [|[e r] reqs IH]; intros w H.
  - exact H.
  - rewrite store_after_serve_cons. apply IH.
    exact (consistent_step e r w H).
Qed.

(** *** Panics and answers *)

(** What one request adds to the trace: a rendering, a store call, or a
    store call followed by a rendering. *)
Lemma todoHandlers_effects (e : env) (r : request) (w : world) :
  exists l : list event,
    effects (todoHandlers parse_time e r) w = l
    /\ ((exists st v, l = [E_JSON st v]
                      /\ fst (todoHandlers parse_time e r w) = Return tt)
        \/ (exists c, l = [c] /\ is_store_call c = true
                      /\ fst (todoHandlers parse_time e r w) = Panic nil_dereference
                      /\ store_err e = None
                      /\ store_after (todoHandlers parse_time e r) w = collection w
                      /\ exists id oid,
                           ObjectIDFromHex id = Some oid
                           /\ existsb (mongo.has_id (bson.ObjectID_ oid))
                                (collection w) = false
                           /\ (r = DELETE id
                               \/ exists body,
                                    r = PUT id body
                                    /\ snd (json.Decode parse_time body zero_todo)
                                       = None))
        \/ (exists c st v, l = [c; E_JSON st v] /\ is_store_call c = true
                           /\ fst (todoHandlers parse_time e r w) = Return tt)).
Proof.
  destruct r as [|body|id body|id]; unfold todoHandlers.
  - pose proof (fetchTodos_run e w) as E. cbn zeta in E.
    destruct (store_err e) as [msg|];
      [|destruct (codec.All (collection w)) as [todos [msg|]]];
      destruct (observe _ _ _ _ _ E ltac:(by_trace)) as (Ef & _ & Er);
      eexists; (split; [exact Ef|]); right; right; eexists _, _, _;
      split_and!; first [reflexivity | exact Er].
  - destruct (json.Decode parse_time body zero_todo) as [t err] eqn:D.
    pose proof (createTodo_run e body w t err D) as E. cbn zeta in E.
    destruct err as [msg|]; [|destruct (String.eqb (Title t) "")];
      [| |destruct (store_err e) as [msg|]; [|destruct (existsb _ _)]];
      destruct (observe _ _ _ _ _ E ltac:(by_trace)) as (Ef & _ & Er);
      eexists; (split; [exact Ef|]);
      first [ left; eexists _, _; split_and!; first [reflexivity | exact Er]
            | right; right; eexists _, _, _;
              split_and!; first [reflexivity | exact Er] ].
  - destruct (ObjectIDFromHex id) as [oid|] eqn:Hid.
    2:{ assert (V : IsValidObjectID id = false)
          by (unfold IsValidObjectID; by rewrite Hid).
        pose proof (malformed_id_run parse_time e id body w _ V (or_introl eq_refl))
          as E. unfold todoHandlers in E.
        destruct (observe _ _ _ _ _ E ltac:(by_trace)) as (Ef & _ & Er).
        eexists; (split; [exact Ef|]). left. eexists _, _.
        split; [reflexivity | exact Er]. }
    destruct (json.Decode parse_time body zero_todo) as [t err] eqn:D.
    pose proof (updateTodo_run parse_time e id oid body w t err Hid D) as E.
    cbn zeta in E.
    destruct err as [msg|]; [|destruct (store_err e) as [msg|] eqn:He];
      [| |destruct (list_find _ _) as [[i d]|] eqn:F];
      destruct (observe _ _ _ _ _ E ltac:(by_trace)) as (Ef & Es & Er);
      eexists; (split; [exact Ef|]).
    + left. eexists _, _. split; [reflexivity | exact Er].
    + right; right. eexists _, _, _. split_and!; first [reflexivity | exact Er].
    + right; right. eexists _, _, _. split_and!; first [reflexivity | exact Er].
    + right; left. eexists. split_and!; try first [reflexivity | exact Er | exact Es].
      exists id, oid. split; [exact Hid|].
      split; [by apply find_None_existsb|]. right. exists body.
      split; [reflexivity|]. by rewrite D.
  - destruct (ObjectIDFromHex id) as [oid|] eqn:Hid.
    2:{ assert (V : IsValidObjectID id = false)
          by (unfold IsValidObjectID; by rewrite Hid).
        pose proof (malformed_id_run parse_time e id sample.buy_milk w _ V
                      (or_intror eq_refl)) as E. unfold todoHandlers in E.
        destruct (observe _ _ _ _ _ E ltac:(by_trace)) as (Ef & _ & Er).
        eexists; (split; [exact Ef|]). left. eexists _, _.
        split; [reflexivity | exact Er]. }
    pose proof (deleteTodo_run e id oid w Hid) as E. cbn zeta in E.
    destruct (store_err e) as [msg|] eqn:He;
      [|destruct (list_find _ _) as [[i d]|] eqn:F];
      destruct (observe _ _ _ _ _ E ltac:(by_trace)) as (Ef & Es & Er);
      eexists; (split; [exact Ef|]).
    + right; right. eexists _, _, _. split_and!; first [reflexivity | exact Er].
    + right; right. eexists _, _, _. split_and!; first [reflexivity | exact Er].
    + right; left. eexists. split_and!; try first [reflexivity | exact Er | exact Es].
      exists id, oid. split; [exact Hid|].
      split; [by apply find_None_existsb|]. by left.
Qed.

(** A handler panics in one situation only: a PUT (with a body that
    decodes) or a DELETE whose well-formed id names no record, the store call
    having succeeded.  The panic is the nil dereference, nothing is rendered
    and the collection is as it was; GET and POST never panic. *)
Theorem handler_panics_only_on_absent_id (e : env) (r : request) (w : world)
    (msg : string) :
  fst (todoHandlers parse_time e r w) = Panic msg ->
  msg = nil_dereference
  /\ store_err e = None
  /\ responses (todoHandlers parse_time e r) w = []
  /\ store_after (todoHandlers parse_time e r) w = collection w
  /\ exists id oid,
       ObjectIDFromHex id = Some oid
       /\ existsb (mongo.has_id (bson.ObjectID_ oid)) (collection w) = false
       /\ (r = DELETE id
           \/ exists body, r = PUT id body
                           /\ snd (json.Decode parse_time body zero_todo) = None).
Proof.
  intros P.
  destruct (todoHandlers_effects e r w)
    as (l & Ef & [(st & v & _ & Er)
                 | [(c & -> & Hc & Er & He & Hs & H)
                   | (c & st & v & _ & _ & Er)]]);
    rewrite Er in P; try discriminate P.
  injection P as <-. split; [reflexivity|]. split; [exact He|].
  split; [|split; [exact Hs | exact H]].
  unfold responses. rewrite Ef. by destruct c.
Qed.

(** Every request makes at most one store call and gets at most one
    response, so over any sequence of requests neither outnumbers the
    requests; a request that made no store call was answered. *)
Theorem one_call_and_one_answer_per_request (reqs : list (env * request))
    (w : world) :
  length (responses (serve_all parse_time reqs) w) <= length reqs
  /\ length (store_calls (serve_all parse_time reqs) w) <= length reqs
  /\ length reqs
     <= length (responses (serve_all parse_time reqs) w)
        + length (store_calls (serve_all parse_time reqs) w).
Proof.
  revert w. induction reqs as [|[e r] reqs IH]; intros w.
  - unfold responses, store_calls, effects. cbn [serve_all mret Go_ret snd].
    rewrite drop_all. cbn. lia.
  - unfold responses, store_calls. rewrite effects_serve_cons.
    rewrite omap_app, List.filter_app, !length_app.
    specialize (IH (snd (todoHandlers parse_time e r w))).
    unfold responses, store_calls in IH.
    set (n := length (omap as_response
                        (effects (serve_all parse_time reqs)
                           (snd (todoHandlers parse_time e r w))))) in *.
    set (m := length (List.filter is_store_call
                        (effects (serve_all parse_time reqs)
                           (snd (todoHandlers parse_time e r w))))) in *.
    clearbody n m.
    destruct (todoHandlers_effects e r w)
      as (l & -> & [(st & v & -> & _)
                   | [(c & -> & Hc & _) | (c & st & v & -> & Hc & _)]]);
      [|destruct c; try discriminate Hc..]; cbn; lia.
Qed.

(** *** Which path ids are turned away *)

(** Reads the [message] of the one response in [R] and refutes [R]. *)
Ltac wrong_message R :=
  apply (f_equal (fun l : list (Z * renderer.M) =>
                    match l with
                    | [(_, m)] => m !! "message"
                    | _ => None
                    end)) in R;
  cbn beta iota in R;
  rewrite ?lookup_insert_eq, ?lookup_singleton_eq in R;
  discriminate R.

(** PUT and DELETE answer "invalid id" exactly for the path ids that are
    not 24 hex digits (of either case); every other answer, and the panic,
    is for an id of that form. *)
Theorem invalid_id_answer_iff (e : env) (id : string) (body : json.body)
    (w : world) (r : request) :
  r = PUT id body \/ r = DELETE id ->
  responses (todoHandlers parse_time e r) w
  = [(StatusBadRequest,
      {[ "message" := Str "invalid id"; "error" := Str "bad request" ]})]
  <-> ~ (String.length id = 24
         /\ forallb is_hex_digit (list_ascii_of_string id) = true).
Proof.
  intros Hr. rewrite <- IsValidObjectID_spec. split.
  - intros R V. unfold IsValidObjectID in V.
    destruct (ObjectIDFromHex id) as [oid|] eqn:Hid; [|discriminate V].
    destruct Hr as [-> | ->]; unfold todoHandlers in R.
    + destruct (json.Decode parse_time body zero_todo) as [t err] eqn:D.
      pose proof (updateTodo_run parse_time e id oid body w t err Hid D) as E.
      cbn zeta in E.
      destruct err as [msg|]; [|destruct (store_err e) as [msg|]];
        [| |destruct (list_find _ _) as [[i d]|]];
        destruct (observe _ _ _ _ _ E ltac:(by_trace)) as (Ef & _);
        unfold responses in R; rewrite Ef in R; wrong_message R.
    + pose proof (deleteTodo_run e id oid w Hid) as E. cbn zeta in E.
      destruct (store_err e) as [msg|];
        [|destruct (list_find _ _) as [[i d]|]];
        destruct (observe _ _ _ _ _ E ltac:(by_trace)) as (Ef & _);
        unfold responses in R; rewrite Ef in R; wrong_message R.
  - intros V. apply not_true_is_false in V.
    pose proof (malformed_id_run parse_time e id body w r V Hr) as E.
    exact (proj1 (only_renders _ _ _ _ _ E)).
Qed.

(** *** Startup *)



End Further.

(* ===================================================================== *)
(** ** The further properties at concrete requests                        *)
(* ===================================================================== *)

(** Deleting the one stored record. *)
Lemma delete_removes_first_match_witness :
  responses (deleteTodo sample.quiet (Hex sample.oid)) sample.one_todo
  = [(StatusOK, {[ "message" := Str "todo deleted successfully" ]})]
  /\ exists i : nat,
       store_after (deleteTodo sample.quiet (Hex sample.oid)) sample.one_todo
       = (take i (collection sample.one_todo)
          ++ drop (S i) (collection sample.one_todo))%list.
Proof.
  assert (R : responses (deleteTodo sample.quiet (Hex sample.oid)) sample.one_todo
              = [(StatusOK, {[ "message" := Str "todo deleted successfully" ]})])
    by (vm_compute; reflexivity).
  split; [exact R|].
  destruct (delete_removes_first_match sample.no_time sample.quiet (Hex sample.oid)
              sample.one_todo _ R) as (oid & i & d & _ & _ & _ & _ & Hs & _).
  exists i. exact Hs.
Defined.




(** The update of the one stored record, then GET. *)
Lemma list_fails_after_update_witness :
  responses (updateTodo sample.no_time sample.quiet (Hex sample.oid)
               sample.buy_milk_done_text) sample.one_todo
  = [(StatusOK, {[ "message" := Str "todo updated successfully" ]})]
  /\ exists v' : renderer.M,
       responses (serve_all sample.no_time
                    [(sample.quiet, PUT (Hex sample.oid) sample.buy_milk_done_text);
                     (fixture.later, GET_)]) sample.one_todo
       = [(StatusOK, {[ "message" := Str "todo updated successfully" ]});
          (StatusBadRequest, v')].
Proof.
  assert (R : responses (updateTodo sample.no_time sample.quiet (Hex sample.oid)
                           sample.buy_milk_done_text) sample.one_todo
              = [(StatusOK, {[ "message" := Str "todo updated successfully" ]})])
    by (vm_compute; reflexivity).
  split; [exact R|].
  destruct (list_fails_after_update sample.no_time sample.quiet fixture.later
              (Hex sample.oid) sample.buy_milk_done_text sample.one_todo _ R)
    as (v' & Hr & _).
  exists v'. exact Hr.
Defined.

(** The same update twice. *)
Lemma update_is_idempotent_witness :
  responses (updateTodo sample.no_time sample.quiet (Hex sample.oid)
               sample.buy_milk_done_text) sample.one_todo
  = [(StatusOK, {[ "message" := Str "todo updated successfully" ]})]
  /\ store_err fixture.later = None
  /\ store_after (serve_all sample.no_time
                    [(sample.quiet, PUT (Hex sample.oid) sample.buy_milk_done_text);
                     (fixture.later, PUT (Hex sample.oid) sample.buy_milk_done_text)])
       sample.one_todo
     = store_after (updateTodo sample.no_time sample.quiet (Hex sample.oid)
                      sample.buy_milk_done_text) sample.one_todo.
Proof.
  assert (R : responses (updateTodo sample.no_time sample.quiet (Hex sample.oid)
                           sample.buy_milk_done_text) sample.one_todo
              = [(StatusOK, {[ "message" := Str "todo updated successfully" ]})])
    by (vm_compute; reflexivity).
  split; [exact R|]. split; [reflexivity|].
  exact (proj2 (update_is_idempotent sample.no_time sample.quiet fixture.later
                  (Hex sample.oid) sample.buy_milk_done_text sample.one_todo _
                  R eq_refl)).
Defined.


(** The same DELETE twice. *)
Lemma deleted_id_is_gone_witness :
  NoDup (ids (collection sample.one_todo))
  /\ responses (serve_all sample.no_time
                  [(sample.quiet, DELETE (Hex sample.oid));
                   (fixture.later, DELETE (Hex sample.oid))]) sample.one_todo
     = [(StatusOK, {[ "message" := Str "todo deleted successfully" ]})].
Proof.
  assert (N : NoDup (ids (collection sample.one_todo)))
    by (vm_compute; apply NoDup_singleton).
  assert (R : responses (deleteTodo sample.quiet (Hex sample.oid)) sample.one_todo
              = [(StatusOK, {[ "message" := Str "todo deleted successfully" ]})])
    by (vm_compute; reflexivity).
  split; [exact N|].
  exact (proj1 (proj2 (proj2
           (deleted_id_is_gone sample.no_time sample.quiet fixture.later
              (Hex sample.oid) sample.one_todo _ N R eq_refl)))).
Defined.

(** The id listed for the one stored record. *)
Lemma listed_id_deletes_its_record_witness :
  collection sample.one_todo !! 0 = Some fixture.stored
  /\ fixture.stored !! "_id" = Some (bson.ObjectID_ sample.oid)
  /\ responses (deleteTodo fixture.later "654f1a2b3c4d5e6f708192a3") sample.one_todo
     = [(StatusOK, {[ "message" := Str "todo deleted successfully" ]})].
Proof.
  assert (R : responses (fetchTodos sample.quiet) sample.one_todo
              = [(StatusOK, {[ "data" := Todos [view_of fixture.buy_milk_read] ]})])
    by (vm_compute; reflexivity).
  assert (Hc : collection sample.one_todo !! 0 = Some fixture.stored)
    by (vm_compute; reflexivity).
  assert (Hd : fixture.stored !! "_id" = Some (bson.ObjectID_ sample.oid))
    by (vm_compute; reflexivity).
  split; [exact Hc|]. split; [exact Hd|].
  exact (proj1 (proj2 (proj2
           (listed_id_deletes_its_record sample.quiet fixture.later
              sample.one_todo _ 0 _ fixture.stored sample.oid R eq_refl Hc Hd
              eq_refl)))).
Defined.

(** A create and an update, from the empty collection. *)
Lemma serving_keeps_collection_consistent_witness :
  consistent (collection initial)
  /\ consistent
       (store_after
          (serve_all sample.no_time
             [(sample.quiet, POST sample.buy_milk);
              (fixture.later, PUT (Hex sample.oid) sample.buy_milk_done_text)])
          initial).
Proof.
  assert (H : consistent (collection initial))
    by (split; [apply Forall_nil_2 | apply NoDup_nil_2]).
  split; [exact H|].
  exact (serving_keeps_collection_consistent sample.no_time _ initial H).
Defined.

(** DELETE of an id that names nothing. *)
Lemma handler_panics_only_on_absent_id_witness :
  fst (todoHandlers sample.no_time sample.quiet (DELETE (Hex sample.other)) initial)
  = Panic nil_dereference
  /\ responses (todoHandlers sample.no_time sample.quiet
                  (DELETE (Hex sample.other))) initial = [].
Proof.
  assert (P : fst (todoHandlers sample.no_time sample.quiet
                     (DELETE (Hex sample.other)) initial)
              = Panic nil_dereference)
    by (vm_compute; reflexivity).
  split; [exact P|].
  exact (proj1 (proj2 (proj2
           (handler_panics_only_on_absent_id sample.no_time sample.quiet
              (DELETE (Hex sample.other)) initial _ P)))).
Defined.

(** [DELETE /todo/zz]. *)
Lemma invalid_id_answer_iff_witness :
  ~ (String.length "zz" = 24
     /\ forallb is_hex_digit (list_ascii_of_string "zz") = true)
  /\ responses (todoHandlers sample.no_time sample.quiet (DELETE "zz"))
       sample.one_todo
     = [(StatusBadRequest,
         {[ "message" := Str "invalid id"; "error" := Str "bad request" ]})].
Proof.
  assert (H : ~ (String.length "zz" = 24
                 /\ forallb is_hex_digit (list_ascii_of_string "zz") = true))
    by (intros [H _]; discriminate H).
  split; [exact H|].
  exact (proj2 (invalid_id_answer_iff sample.no_time sample.quiet "zz"
                  sample.buy_milk sample.one_todo (DELETE "zz")
                  (or_intror eq_refl)) H).
Defined.
